(** * VegaWrapper: request sanitisation and response normalisation

    A shallow embedding of [src/VegaWrapper.js].

    - JavaScript strings are [string]s (code units below 256); a value
      that may be [undefined] is an [option].
    - [this.domains] and [this.domainMap] are [gmap]s.  A query or header
      object is an association list, since the order of its properties is
      visible to the URL formatter; its values are strings.
    - The lazily filled [this.validators] cache is threaded through a
      state-and-exception monad.  A thrown exception is a value of [exn];
      what the caller's [opt] looked like when it was thrown is not kept.
    - The matcher library, the percent codec, the JSON functions and the
      collaborators handed to the constructor are parameters; [Sample]
      gives instances on which the wrapper is run. *)

From Stdlib Require Import Ascii String ZArith QArith.
From stdpp Require Import gmap strings list.

Local Open Scope string_scope.
Local Open Scope Z_scope.

(** ** Characters and constant strings *)

Definition code (c : ascii) : Z := Z.of_N (N_of_ascii c).
Definition chr (z : Z) : ascii := ascii_of_N (Z.to_N z).

Definition str1 (c : ascii) : string := String c EmptyString.
Definition dquote : string := str1 (chr 34).
Definition LF : string := str1 (chr 10).

Definition isDigit (c : ascii) : bool := (48 <=? code c) && (code c <=? 57).
Definition isLower (c : ascii) : bool := (97 <=? code c) && (code c <=? 122).

(** [.] of a regular expression: every code unit except the line
    terminators. *)
Definition isLineTerminator (c : ascii) : bool :=
  (code c =? 10) || (code c =? 13).

(** White space removed by [String.prototype.trim] (WhiteSpace and
    LineTerminator below 256). *)
Definition isWhiteSpace (c : ascii) : bool :=
  ((9 <=? code c) && (code c <=? 13)) || (code c =? 32) || (code c =? 160).

(** ** String primitives *)

Fixpoint allChars (p : ascii -> bool) (s : string) : bool :=
  match s with
  | EmptyString => true
  | String c r => p c && allChars p r
  end.

Definition nonEmpty (s : string) : bool :=
  match s with EmptyString => false | String _ _ => true end.

Fixpoint stripPrefix (p s : string) : option string :=
  match p with
  | EmptyString => Some s
  | String a p' =>
      match s with
      | String b s' => if Ascii.eqb a b then stripPrefix p' s' else None
      | EmptyString => None
      end
  end.

Definition startsWith (p s : string) : bool :=
  match stripPrefix p s with Some _ => true | None => false end.

(** [s.substring(n)] *)
Fixpoint substringFrom (n : nat) (s : string) : string :=
  match n, s with
  | O, _ => s
  | S n', String _ r => substringFrom n' r
  | S _, EmptyString => EmptyString
  end.

(** Longest prefix of characters satisfying [p], and the rest. *)
Fixpoint span (p : ascii -> bool) (s : string) : string * string :=
  match s with
  | EmptyString => (EmptyString, EmptyString)
  | String c r =>
      if p c then let '(a, b) := span p r in (String c a, b)
      else (EmptyString, s)
  end.

Fixpoint trimStart (s : string) : string :=
  match s with
  | EmptyString => EmptyString
  | String c r => if isWhiteSpace c then trimStart r else s
  end.

Fixpoint trimEnd (s : string) : string :=
  match s with
  | EmptyString => EmptyString
  | String c r =>
      match trimEnd r with
      | EmptyString => if isWhiteSpace c then EmptyString else str1 c
      | r' => String c r'
      end
  end.

(** [s.trim()] *)
Definition trim (s : string) : string := trimEnd (trimStart s).

(** [s.replace(a, b)] with a one-character string pattern [a]: a string
    pattern replaces the first occurrence only. *)
Fixpoint replaceFirst (a : ascii) (b : string) (s : string) : string :=
  match s with
  | EmptyString => EmptyString
  | String c r => if Ascii.eqb c a then b +:+ r else String c (replaceFirst a b r)
  end.

(** Replacement of every occurrence, for comparison with [replaceFirst]. *)
Fixpoint replaceAll (a : ascii) (b : string) (s : string) : string :=
  match s with
  | EmptyString => EmptyString
  | String c r =>
      if Ascii.eqb c a then b +:+ replaceAll a b r else String c (replaceAll a b r)
  end.

(** ** The regular expressions of the source *)

(** [url.replace(/^([a-z]+:)https?:\/\//, '$1//')]: the scheme is the
    maximal run of lower-case letters, since the next character must be
    the colon. *)
Definition repairUrl (u : string) : string :=
  let '(scheme, rest) := span isLower u in
  match scheme, stripPrefix ":http" rest with
  | String _ _, Some r =>
      let r' := match stripPrefix "s" r with Some r2 => r2 | None => r end in
      match stripPrefix "://" r' with
      | Some tail => scheme +:+ "://" +:+ tail
      | None => u
      end
  | _, _ => u
  end.

(** [/^\/\//.test(s)] *)
Definition isProtocolRelative (s : string) : bool := startsWith "//" s.

(** [/^\/wiki\/.+$/.test(s)] *)
Definition isWikiPath (s : string) : bool :=
  match stripPrefix "/wiki/" s with
  | Some r => nonEmpty r && allChars (fun c => negb (isLineTerminator c)) r
  | None => false
  end.

(** [/^\/[^|]+$/.test(s)] *)
Definition isTitlePath (s : string) : bool :=
  match s with
  | String "/" r => nonEmpty r && allChars (fun c => negb (Ascii.eqb c "|")) r
  | _ => false
  end.

(** [/^\/api\//.test(s)] *)
Definition isApiPath (s : string) : bool := startsWith "/api/" s.

Definition dropMinus (s : string) : string :=
  match s with String "-" r => r | _ => s end.

(** [/^-?[0-9]+$/.test(s)] *)
Definition isIntegerLiteral (s : string) : bool :=
  let d := dropMinus s in nonEmpty d && allChars isDigit d.

(** [/^-?[0-9]+\.?[0-9]*$/.test(s)] *)
Definition isDecimalLiteral (s : string) : bool :=
  let '(ip, rest) := span isDigit (dropMinus s) in
  nonEmpty ip &&
  match rest with
  | EmptyString => true
  | String "." fp => allChars isDigit fp
  | _ => false
  end.

Definition isStyleChar (c : ascii) : bool :=
  Ascii.eqb c "-" || Ascii.eqb c "_" || isDigit c || isLower c.

(** [/^[-_0-9a-z]$/.test(s)]: the class is not quantified, so exactly one
    character is accepted. *)
Definition isStyle (s : string) : bool :=
  match s with
  | String c EmptyString => isStyleChar c
  | _ => false
  end.

(** ** Numbers

    [parseInt] and [parseFloat] return IEEE binary64 values.  A value is
    kept as the exact rational it denotes, so that the comparisons of
    [validate] are those of the doubles. *)

Inductive number :=
  | Finite (q : Q)
  | Infinity (negative : bool)
  | NaN.

Definition roundHalfEven (n d : Z) : Z :=
  let q := n / d in
  match (2 * (n mod d)) ?= d with
  | Lt => q
  | Gt => q + 1
  | Eq => if Z.even q then q else q + 1
  end.

(** The binary64 value nearest to [n / d] (ties to even), for [0 <= n]
    and [0 < d]: 53 significant bits, exponent of the last place at
    least [-1074], overflow to infinity from [2^1024]. *)
Definition toDouble (n d : Z) : number :=
  if n =? 0 then Finite 0%Q
  else
    let k := Z.log2 n - Z.log2 d in
    let reaches := if 0 <=? k then d * 2 ^ k <=? n else d <=? n * 2 ^ (- k) in
    let e := Z.max ((if reaches then k else k - 1) - 52) (-1074) in
    if 0 <=? e then
      let v := roundHalfEven n (d * 2 ^ e) * 2 ^ e in
      if 2 ^ 1024 <=? v then Infinity false else Finite (inject_Z v)
    else
      Finite (Qmake (roundHalfEven (n * 2 ^ (- e)) d) (Z.to_pos (2 ^ (- e)))).

Definition negate (x : number) : number :=
  match x with
  | Finite q => Finite (Qopp q)
  | Infinity s => Infinity (negb s)
  | NaN => NaN
  end.

Fixpoint digitsValue (acc : Z) (s : string) : Z :=
  match s with
  | EmptyString => acc
  | String c r => digitsValue (10 * acc + (code c - 48)) r
  end.

Definition withSign (s : string) (x : number) : number :=
  match s with String "-" _ => negate x | _ => x end.

(** [parseInt(s)] on the strings admitted by [isIntegerLiteral]; [NaN]
    stands for the other inputs, which [validate] never passes. *)
Definition parseInt (s : string) : number :=
  if isIntegerLiteral s
  then withSign s (toDouble (digitsValue 0 (dropMinus s)) 1)
  else NaN.

(** [parseFloat(s)] on the strings admitted by [isDecimalLiteral]. *)
Definition parseFloat (s : string) : number :=
  if isDecimalLiteral s then
    let '(ip, rest) := span isDigit (dropMinus s) in
    let fp := substringFrom 1 rest in
    withSign s (toDouble (digitsValue (digitsValue 0 ip) fp)
                         (10 ^ Z.of_nat (String.length fp)))
  else NaN.

(** [x < b] and [x > b] for a number [x] and an integer constant [b]. *)
Definition ltNum (x : number) (b : Z) : bool :=
  match x with
  | Finite q => negb (Qle_bool (inject_Z b) q)
  | Infinity s => s
  | NaN => false
  end.

Definition gtNum (x : number) (b : Z) : bool :=
  match x with
  | Finite q => negb (Qle_bool q (inject_Z b))
  | Infinity s => negb s
  | NaN => false
  end.

(** ** Data model *)

(** Exceptions: [Error] carries the message of [new Error(message)]; the
    others are raised by the language itself. *)
Inductive exn :=
  | Error (message : string)
  | TypeError
  | URIError
  | SyntaxError.

(** A query or header object: own properties in insertion order. *)
Abbreviation Query := (list (string * string)).

Fixpoint getProp (q : Query) (name : string) : option string :=
  match q with
  | [] => None
  | (k, v) :: r => if String.eqb k name then Some v else getProp r name
  end.

(** A string-or-undefined value used as a condition, as a property key or
    in a concatenation. *)
Definition truthy (v : option string) : bool :=
  match v with Some s => nonEmpty s | None => false end.

Definition toStr (v : option string) : string := default "undefined" v.

(** The structured URL returned by the parser and handed to the
    formatter. *)
Module UrlParts.
Record t := mk {
  host : option string;
  protocol : option string;
  pathname : string;
  query : option Query;
  isRelativeHost : bool
}.
Definition set_host (h : option string) (u : t) : t :=
  mk h (protocol u) (pathname u) (query u) (isRelativeHost u).
Definition set_protocol (p : option string) (u : t) : t :=
  mk (host u) p (pathname u) (query u) (isRelativeHost u).
Definition set_pathname (p : string) (u : t) : t :=
  mk (host u) (protocol u) p (query u) (isRelativeHost u).
Definition set_query (q : option Query) (u : t) : t :=
  mk (host u) (protocol u) (pathname u) q (isRelativeHost u).
End UrlParts.

(** The loader options [opt]. *)
Module Opt.
Record t := mk {
  url : string;
  type : option string;
  graphProtocol : option string;
  addCorsOrigin : bool;
  headers : option Query
}.
Definition set_url (s : string) (o : t) : t :=
  mk s (type o) (graphProtocol o) (addCorsOrigin o) (headers o).
Definition set_graphProtocol (p : option string) (o : t) : t :=
  mk (url o) (type o) p (addCorsOrigin o) (headers o).
Definition set_addCorsOrigin (b : bool) (o : t) : t :=
  mk (url o) (type o) (graphProtocol o) b (headers o).
Definition set_headers (h : option Query) (o : t) : t :=
  mk (url o) (type o) (graphProtocol o) (addCorsOrigin o) h.
End Opt.

(** The result of [sanitizeHost]. *)
Module SanitizedHost.
Record t := mk { host : option string; protocol : string }.
End SanitizedHost.

(** The fields of a [VegaWrapper] instance that are fixed at construction.
    [objExtender], [parseUrl] and [formatUrl] are supplied by the caller.
    [objExtender] is [datalib.extend]: called on a target that may be
    [undefined], it returns an object or throws. *)
Record VegaWrapper := {
  isTrusted : bool;
  domains : gmap string (list string);
  domainMap : option (gmap string string);
  objExtender : option Query -> Query -> exn + option Query;
  parseUrl : Opt.t -> UrlParts.t;
  formatUrl : UrlParts.t -> Opt.t -> string
}.

(** ** State and exceptions

    [self.validators] is the only mutable field: a computation takes the
    cache and returns a value or an exception together with the cache. *)

Definition M (A : Type) : Type :=
  gmap string (string -> bool) -> (exn + A) * gmap string (string -> bool).

Definition ret {A} (a : A) : M A := fun vs => (inr a, vs).
Definition throw {A} (e : exn) : M A := fun vs => (inl e, vs).
Definition bind {A B} (m : M A) (k : A -> M B) : M B :=
  fun vs =>
    match m vs with
    | (inr a, vs') => k a vs'
    | (inl e, vs') => (inl e, vs')
    end.
Definition lift {A} (r : exn + A) : M A := fun vs => (r, vs).

Notation "'let!' x ':=' m 'in' k" := (bind m (fun x => k))
  (at level 10, x name, m at level 200, k at level 200, only parsing).

(** [protocol.substring(0, protocol.length - 1)] when the last character
    is a colon. *)
Fixpoint removeColon (p : string) : string :=
  match p with
  | EmptyString => EmptyString
  | String c EmptyString => if Ascii.eqb c ":" then EmptyString else p
  | String c r => String c (removeColon r)
  end.

Definition isHttp (p : string) : bool :=
  String.eqb p "https:" || String.eqb p "http:".

(** ** The wrapper *)

(** What the module takes from its environment.  [makeValidator domains
    flag] of [require('domain-validator')] is given as the [test] method of
    the matcher it returns.  For the global functions, [None] is the
    [URIError] of a malformed escape; encoding cannot fail without
    surrogate code units. *)
Class Globals := {
  makeValidator : list string -> bool -> string -> bool;
  decodeURIComponent : string -> option string;
  encodeURIComponent : string -> string
}.

Section Wrapper.
Context {globals : Globals}.
Variable self : VegaWrapper.

(** [_getProtocolDomains]: [domains[protocol] ||
    domains[removeColon(protocol)]]; a list, even empty, is truthy. *)
Definition _getProtocolDomains (p : string) : option (list string) :=
  match domains self !! p with
  | Some ds => Some ds
  | None => domains self !! removeColon p
  end.

(** [testHost]: the matcher of a protocol is built on first use and
    cached; a protocol without domains is not cached. *)
Definition testHost (p : string) (h : option string) : M bool :=
  fun vs =>
    match vs !! p with
    | Some v => (inr (v (toStr h)), vs)
    | None =>
        match _getProtocolDomains p with
        | Some ds =>
            let v := makeValidator ds (isHttp p) in
            (inr (v (toStr h)), <[p := v]> vs)
        | None => (inr false, vs)
        end
    end.

(** [(this.domainMap && this.domainMap[host]) || host] *)
Definition mapHost (h : option string) : option string :=
  match domainMap self with
  | Some dm => if truthy (dm !! toStr h) then dm !! toStr h else h
  | None => h
  end.

(** [sanitizeHost]: [None] is [undefined]. *)
Definition sanitizeHost (h : option string) : M (option SanitizedHost.t) :=
  let h := mapHost h in
  let! https := testHost "https:" h in
  if https then ret (Some (SanitizedHost.mk h "https:"))
  else
    let! http := testHost "http:" h in
    if http then ret (Some (SanitizedHost.mk h "http:"))
    else ret None.

(** [_validateExternalService]; the updated [urlParts] is returned. *)
Definition _validateExternalService (urlParts : UrlParts.t)
    (sanitizedHost : SanitizedHost.t) (url : string)
    (protocolOverride : option string) : M UrlParts.t :=
  let p := toStr (if truthy protocolOverride then protocolOverride
                  else UrlParts.protocol urlParts) in
  match _getProtocolDomains p with
  | None => throw (Error (p +:+ ": protocol is disabled: " +:+ url))
  | Some ds =>
      let! urlParts :=
        (if UrlParts.isRelativeHost urlParts then
           let urlParts := UrlParts.set_host (head ds) urlParts in
           let! r := sanitizeHost (UrlParts.host urlParts) in
           match r with
           | Some r =>
               ret (UrlParts.set_protocol (Some (SanitizedHost.protocol r)) urlParts)
           | None => throw TypeError
           end
         else
           ret (UrlParts.set_protocol
                  (Some (SanitizedHost.protocol sanitizedHost)) urlParts)) in
      let! ok := testHost p (UrlParts.host urlParts) in
      if ok then ret urlParts
      else throw (Error (p +:+ ": URL must either be relative (" +:+ p
                         +:+ "///...), or use one of the allowed hosts: " +:+ url))
  end.

(** [validate] of the map snapshot parameters. *)
Definition validate (obj : Query) (name : string) (min max : Z)
    (isFloat : bool) : exn + number :=
  match getProp obj name with
  | None => inl (Error ("mapsnapshot: parameter " +:+ name +:+ " is not set"))
  | Some value =>
      if negb ((if isFloat then isDecimalLiteral else isIntegerLiteral) value)
      then inl (Error ("mapsnapshot: parameter " +:+ name +:+ " is not a number"))
      else
        let value := if isFloat then parseFloat value else parseInt value in
        if ltNum value min || gtNum value max
        then inl (Error ("mapsnapshot: parameter " +:+ name +:+ " is not valid"))
        else inr value
  end.

(** [case 'wikititle:'] of the open action, also reached by falling
    through from [http:] and [https:]. *)
Definition wikititleCase (urlParts : UrlParts.t) (opt : Opt.t)
    (sanitizedHost : SanitizedHost.t) (decodedPathname : string)
    : M (UrlParts.t * Opt.t) :=
  match UrlParts.query urlParts with
  | None => throw TypeError
  | Some q =>
      if negb (Nat.eqb (length q) 0)
      then throw (Error "wikititle: query parameters are not allowed")
      else if negb (isTitlePath decodedPathname)
      then throw (Error "wikititle: invalid title")
      else
        ret (UrlParts.set_protocol (Some (SanitizedHost.protocol sanitizedHost))
               (UrlParts.set_pathname
                  ("/wiki/" +:+ encodeURIComponent
                     (replaceFirst " " "_" (substringFrom 1 decodedPathname)))
                  urlParts), opt)
  end.

(** The branch [opt.type === 'open']. *)
Definition openAction (urlParts : UrlParts.t) (opt : Opt.t)
    (sanitizedHost : SanitizedHost.t) (isRelativeProtocol : bool)
    : M (UrlParts.t * Opt.t) :=
  match decodeURIComponent (UrlParts.pathname urlParts) with
  | None => throw URIError
  | Some decoded =>
      let decodedPathname := trim decoded in
      let p := toStr (UrlParts.protocol urlParts) in
      if String.eqb p "http:" || String.eqb p "https:" then
        if negb isRelativeProtocol then
          if negb (isWikiPath decodedPathname)
          then throw (Error "wikititle: http(s) links must begin with /wiki/ prefix")
          else wikititleCase urlParts (Opt.set_graphProtocol (Some "wikititle") opt)
                 sanitizedHost (substringFrom (String.length "/wiki") decodedPathname)
        else wikititleCase urlParts (Opt.set_graphProtocol (Some "wikititle") opt)
               sanitizedHost decodedPathname
      else if String.eqb p "wikititle:" then
        wikititleCase urlParts opt sanitizedHost decodedPathname
      else
        throw (Error (dquote +:+ "open()" +:+ dquote +:+
          " action only allows links with wikititle protocol, e.g. wikititle:///My_page"))
  end.

(** [case 'mapsnapshot:'], after the external service was validated. *)
Definition mapsnapshotCase (urlParts : UrlParts.t) (opt : Opt.t)
    : exn + (UrlParts.t * Opt.t) :=
  match UrlParts.query urlParts with
  | None => inl (Error "mapsnapshot: missing required parameters")
  | Some query =>
      match validate query "width" 1 4096 false with inl e => inl e | inr _ =>
      match validate query "height" 1 4096 false with inl e => inl e | inr _ =>
      match validate query "zoom" 0 22 false with inl e => inl e | inr _ =>
      match validate query "lat" (-90) 90 true with inl e => inl e | inr _ =>
      match validate query "lon" (-180) 180 true with inl e => inl e | inr _ =>
        let style := getProp query "style" in
        if truthy style && negb (isStyle (toStr style))
        then inl (Error
          "mapsnapshot: if style is given, it must be letters/numbers/dash/underscores only")
        else
          inr (UrlParts.set_query (Some [])
                 (UrlParts.set_pathname
                    ("/img/" +:+ (if truthy style then toStr style else "osm-intl")
                     +:+ "," +:+ toStr (getProp query "zoom")
                     +:+ "," +:+ toStr (getProp query "lat")
                     +:+ "," +:+ toStr (getProp query "lon")
                     +:+ "," +:+ toStr (getProp query "width")
                     +:+ "x" +:+ toStr (getProp query "height") +:+ "@2x.png")
                    urlParts), opt)
      end end end end end
  end.

(** The branch of every other [opt.type]: the data protocols. *)
Definition fetchAction (urlParts : UrlParts.t) (opt : Opt.t)
    (sanitizedHost : SanitizedHost.t) : M (UrlParts.t * Opt.t) :=
  let p := toStr (UrlParts.protocol urlParts) in
  let resolved := Some (SanitizedHost.protocol sanitizedHost) in
  if String.eqb p "http:" || String.eqb p "https:" then
    if negb (isTrusted self) then
      throw (Error ("HTTP and HTTPS protocols are not supported for untrusted graphs."
        +:+ LF +:+ "Use wikiraw:, wikiapi:, wikirest:, wikirawupload:, and other protocols."
        +:+ LF +:+ "See https://www.mediawiki.org/wiki/Extension:Graph#External_data"))
    else ret (urlParts, opt)
  else if String.eqb p "wikiapi:" then
    let! query :=
      lift (objExtender self (UrlParts.query urlParts)
              [("format", "json"); ("formatversion", "2")]) in
    ret (UrlParts.set_protocol resolved
           (UrlParts.set_pathname "/w/api.php" (UrlParts.set_query query urlParts)),
         Opt.set_addCorsOrigin true opt)
  else if String.eqb p "wikirest:" then
    if negb (isApiPath (UrlParts.pathname urlParts))
    then throw (Error "wikirest: protocol must begin with the /api/ prefix")
    else ret (UrlParts.set_protocol resolved urlParts, opt)
  else if String.eqb p "wikiraw:" then
    match decodeURIComponent (UrlParts.pathname urlParts) with
    | None => throw URIError
    | Some decodedPathname =>
        if negb (isTitlePath decodedPathname)
        then throw (Error "wikiraw: invalid title")
        else
          ret (UrlParts.set_protocol resolved
                 (UrlParts.set_pathname "/w/api.php"
                    (UrlParts.set_query
                       (Some [("format", "json"); ("formatversion", "2");
                              ("action", "query"); ("prop", "revisions");
                              ("rvprop", "content");
                              ("titles", substringFrom 1 decodedPathname)])
                       urlParts)),
               Opt.set_addCorsOrigin true opt)
    end
  else if String.eqb p "tabular:" || String.eqb p "tabularinfo:" then
    match decodeURIComponent (UrlParts.pathname urlParts) with
    | None => throw URIError
    | Some decodedPathname =>
        if negb (isTitlePath decodedPathname)
        then throw (Error (p +:+ ": invalid title"))
        else
          let urlParts :=
            UrlParts.set_pathname "/w/api.php"
              (UrlParts.set_query
                 (Some [("format", "json"); ("formatversion", "2");
                        ("action", "jsondata");
                        ("title", substringFrom 1 decodedPathname)]) urlParts) in
          let opt := Opt.set_addCorsOrigin true opt in
          let! urlParts :=
            _validateExternalService urlParts sanitizedHost (Opt.url opt)
              (Some "tabular:") in
          ret (urlParts, opt)
    end
  else if String.eqb p "wikifile:" then
    ret (UrlParts.set_protocol resolved
           (UrlParts.set_pathname
              ("/wiki/Special:Redirect/file" +:+ UrlParts.pathname urlParts) urlParts),
         opt)
  else if String.eqb p "wikirawupload:" then
    let! urlParts :=
      _validateExternalService urlParts sanitizedHost (Opt.url opt) None in
    ret (UrlParts.set_query (Some []) urlParts, opt)
  else if String.eqb p "wikidatasparql:" then
    let! urlParts :=
      _validateExternalService urlParts sanitizedHost (Opt.url opt) None in
    match UrlParts.query urlParts with
    | Some q =>
        if truthy (getProp q "query") then
          let urlParts :=
            UrlParts.set_pathname "/bigdata/namespace/wdq/sparql"
              (UrlParts.set_query (Some [("query", toStr (getProp q "query"))])
                 urlParts) in
          let! headers :=
            lift (objExtender self (Some (default [] (Opt.headers opt)))
                    [("Accept", "application/sparql-results+json")]) in
          ret (urlParts, Opt.set_headers headers opt)
        else throw (Error ("wikidatasparql: missing query parameter in: "
                           +:+ Opt.url opt))
    | None => throw (Error ("wikidatasparql: missing query parameter in: "
                            +:+ Opt.url opt))
    end
  else if String.eqb p "geoshape:" || String.eqb p "geoline:" then
    let! urlParts :=
      _validateExternalService urlParts sanitizedHost (Opt.url opt)
        (Some "geoshape:") in
    match UrlParts.query urlParts with
    | Some q =>
        if truthy (getProp q "ids") || truthy (getProp q "query") then
          ret (UrlParts.set_pathname
                 ("/" +:+ toStr (removeColon <$> Opt.graphProtocol opt)) urlParts,
               opt)
        else throw (Error (toStr (Opt.graphProtocol opt)
               +:+ " missing ids or query parameter in: " +:+ Opt.url opt))
    | None => throw (Error (toStr (Opt.graphProtocol opt)
               +:+ " missing ids or query parameter in: " +:+ Opt.url opt))
    end
  else if String.eqb p "mapsnapshot:" then
    let! urlParts :=
      _validateExternalService urlParts sanitizedHost (Opt.url opt)
        (Some "geoshape:") in
    lift (mapsnapshotCase urlParts opt)
  else throw (Error ("Unknown protocol " +:+ Opt.url opt)).

(** The body of [sanitizeUrl] up to the call of the formatter: the final
    [urlParts] and the updated [opt]. *)
Definition sanitizeParts (opt : Opt.t) : M (UrlParts.t * Opt.t) :=
  let opt := Opt.set_url (repairUrl (Opt.url opt)) opt in
  let isRelativeProtocol := isProtocolRelative (Opt.url opt) in
  let urlParts := parseUrl self opt in
  let! sanitizedHost := sanitizeHost (UrlParts.host urlParts) in
  match sanitizedHost with
  | None => throw (Error ("URL hostname is not whitelisted: " +:+ Opt.url opt))
  | Some sanitizedHost =>
      let urlParts := UrlParts.set_host (SanitizedHost.host sanitizedHost) urlParts in
      let '(urlParts, isRelativeProtocol) :=
        if truthy (UrlParts.protocol urlParts) then (urlParts, isRelativeProtocol)
        else (UrlParts.set_protocol (Some (SanitizedHost.protocol sanitizedHost))
                urlParts, true) in
      let opt := Opt.set_graphProtocol (UrlParts.protocol urlParts) opt in
      if bool_decide (Opt.type opt = Some "open")
      then openAction urlParts opt sanitizedHost isRelativeProtocol
      else fetchAction urlParts opt sanitizedHost
  end.

(** [sanitizeUrl]: the formatted URL, with the [opt] the caller sees
    afterwards. *)
Definition sanitizeUrl (opt : Opt.t) : M (string * Opt.t) :=
  let! r := sanitizeParts opt in
  ret (formatUrl self (fst r) (snd r), snd r).

(** *** The host checks without the cache

    [allowed] is the answer of [testHost] and [resolveHost] the answer
    of [sanitizeHost] whenever the cache holds only matchers built by
    [testHost] itself ([cacheOk]); [externalService] is the outcome of
    [_validateExternalService]. *)

Definition allowed (p : string) (h : option string) : bool :=
  match _getProtocolDomains p with
  | Some ds => makeValidator ds (isHttp p) (toStr h)
  | None => false
  end.

Definition resolveHost (h : option string) : option SanitizedHost.t :=
  let h := mapHost h in
  if allowed "https:" h then Some (SanitizedHost.mk h "https:")
  else if allowed "http:" h then Some (SanitizedHost.mk h "http:")
  else None.

Definition cacheOk (vs : gmap string (string -> bool)) : Prop :=
  forall p v, vs !! p = Some v ->
    exists ds, _getProtocolDomains p = Some ds /\ v = makeValidator ds (isHttp p).

Definition externalService (urlParts : UrlParts.t)
    (sanitizedHost : SanitizedHost.t) (url : string)
    (protocolOverride : option string) : exn + UrlParts.t :=
  let p := toStr (if truthy protocolOverride then protocolOverride
                  else UrlParts.protocol urlParts) in
  match _getProtocolDomains p with
  | None => inl (Error (p +:+ ": protocol is disabled: " +:+ url))
  | Some ds =>
      let chosen :=
        if UrlParts.isRelativeHost urlParts then
          match resolveHost (head ds) with
          | Some r =>
              inr (UrlParts.set_protocol (Some (SanitizedHost.protocol r))
                     (UrlParts.set_host (head ds) urlParts))
          | None => inl TypeError
          end
        else
          inr (UrlParts.set_protocol
                 (Some (SanitizedHost.protocol sanitizedHost)) urlParts) in
      match chosen with
      | inl e => inl e
      | inr urlParts =>
          if allowed p (UrlParts.host urlParts) then inr urlParts
          else inl (Error (p +:+ ": URL must either be relative (" +:+ p
                           +:+ "///...), or use one of the allowed hosts: " +:+ url))
      end
  end.

(** The request as [sanitizeUrl] sees it after the repair of the URL. *)
Definition repaired (opt : Opt.t) : Opt.t :=
  Opt.set_url (repairUrl (Opt.url opt)) opt.

Definition parsed (opt : Opt.t) : UrlParts.t := parseUrl self (repaired opt).

(** The parts once the resolved host was adopted and, for a URL without
    a protocol, the scheme of that host; whether the URL then counts as
    protocol-relative; and [opt] with the protocol recorded. *)
Definition adopted (opt : Opt.t) (sanitizedHost : SanitizedHost.t) : UrlParts.t :=
  let urlParts := UrlParts.set_host (SanitizedHost.host sanitizedHost) (parsed opt) in
  if truthy (UrlParts.protocol urlParts) then urlParts
  else UrlParts.set_protocol (Some (SanitizedHost.protocol sanitizedHost)) urlParts.

Definition relativeProtocol (opt : Opt.t) : bool :=
  if truthy (UrlParts.protocol (parsed opt))
  then isProtocolRelative (Opt.url (repaired opt))
  else true.

Definition tagged (opt : Opt.t) (sanitizedHost : SanitizedHost.t) : Opt.t :=
  Opt.set_graphProtocol (UrlParts.protocol (adopted opt sanitizedHost)) (repaired opt).


(** The host of [urlParts] went through the allowlist for the transport
    scheme of [urlParts]: [testHost] accepted it for that scheme, or
    [sanitizeHost] accepted it and resolved that scheme. *)
Definition validated (urlParts : UrlParts.t) : Prop :=
  exists p, UrlParts.protocol urlParts = Some p /\
    (p = "https:" \/ p = "http:") /\
    (allowed p (UrlParts.host urlParts) = true \/
     exists r, resolveHost (UrlParts.host urlParts) = Some r /\
               SanitizedHost.protocol r = p).
End Wrapper.

(** ** Response normalisation *)

(** JavaScript values as produced by [JSON.parse], with [undefined]. *)
#[warnings="-register-all"] Inductive value :=
  | VUndefined
  | VNull
  | VBool (b : bool)
  | VNum (n : number)
  | VStr (s : string)
  | VArr (items : list value)
  | VObj (props : list (string * value)).

(** The condition [if (v)]. *)
Definition isTruthy (v : value) : bool :=
  match v with
  | VUndefined | VNull => false
  | VBool b => b
  | VNum (Finite q) => negb (Qeq_bool q 0)
  | VNum (Infinity _) => true
  | VNum NaN => false
  | VStr s => nonEmpty s
  | VArr _ | VObj _ => true
  end.

Fixpoint lookupProp (props : list (string * value)) (name : string) : value :=
  match props with
  | [] => VUndefined
  | (k, v) :: r => if String.eqb k name then v else lookupProp r name
  end.

(** [v.name] for a name that is neither an index nor inherited from a
    prototype ([error], [warnings]): reading a property of [undefined] or
    [null] throws, only an object has such a property of its own. *)
Definition getField (v : value) (name : string) : exn + value :=
  match v with
  | VUndefined | VNull => inl TypeError
  | VObj props => inr (lookupProp props name)
  | _ => inr VUndefined
  end.

(** What [dataParser] hands to [callback(error, data)]. *)
Record Callback := { cb_error : option exn; cb_data : value }.

Section Normalizer.
(** [JSON.parse] ([None] is a thrown [SyntaxError]) and
    [JSON.stringify]. *)
Variable JSON_parse : string -> option value.
Variable JSON_stringify : value -> string.
(** The reshaping of the unwrapped response under [wikiraw:],
    [tabular:] and [tabularinfo:], and the whole [wikidatasparql:] case,
    which no property below depends on: tag, [opt.url] and input. *)
Variable reshape : string -> string -> value -> exn + value.
Variable sparql : string -> exn + value.

(** [parseMWApiResponse]: the messages handed to [this.logger], and the
    outcome. *)
Definition parseMWApiResponse (data : string) : list string * (exn + value) :=
  match JSON_parse data with
  | None => ([], inl SyntaxError)
  | Some data =>
      match getField data "error" with
      | inl e => ([], inl e)
      | inr err =>
          if isTruthy err
          then ([], inl (Error ("API error: " +:+ JSON_stringify err)))
          else
            match getField data "warnings" with
            | inl e => ([], inl e)
            | inr w =>
                if isTruthy w
                then (["API warnings: " +:+ JSON_stringify w], inr data)
                else ([], inr data)
            end
      end
  end.

(** [parseDataOrThrow] *)
Definition parseDataOrThrow (data : string) (opt : Opt.t)
    : list string * (exn + value) :=
  let tag := Opt.graphProtocol opt in
  if bool_decide (tag = Some "wikiapi:") then parseMWApiResponse data
  else if bool_decide (tag = Some "wikiraw:") || bool_decide (tag = Some "tabular:")
          || bool_decide (tag = Some "tabularinfo:") then
    match parseMWApiResponse data with
    | (logged, inr d) => (logged, reshape (toStr tag) (Opt.url opt) d)
    | r => r
    end
  else if bool_decide (tag = Some "wikidatasparql:") then ([], sparql data)
  else ([], inr (VStr data)).

(** [dataParser]: the messages logged and the arguments of the
    callback. *)
Definition dataParser (error : option exn) (data : string) (opt : Opt.t)
    : list string * Callback :=
  match error with
  | Some e => ([], {| cb_error := Some e; cb_data := VUndefined |})
  | None =>
      match parseDataOrThrow data opt with
      | (logged, inr d) => (logged, {| cb_error := None; cb_data := d |})
      | (logged, inl e) => (logged, {| cb_error := Some e; cb_data := VUndefined |})
      end
  end.
End Normalizer.

(** ** Map snapshot parameters, as the specification words them *)






Definition hasPipe (s : string) : bool :=
  negb (allChars (fun c => negb (Ascii.eqb c "|")) s).

Definition styleError : exn :=
  Error "mapsnapshot: if style is given, it must be letters/numbers/dash/underscores only".

Definition untrustedError : exn :=
  Error ("HTTP and HTTPS protocols are not supported for untrusted graphs."
    +:+ LF +:+ "Use wikiraw:, wikiapi:, wikirest:, wikirawupload:, and other protocols."
    +:+ LF +:+ "See https://www.mediawiki.org/wiki/Extension:Graph#External_data").

Definition unlistedError (url : string) : exn :=
  Error ("URL hostname is not whitelisted: " +:+ url).

(** ** Sample collaborators and configuration

    Concrete instances on which the wrapper is run: a matcher honouring
    its sub-domain flag, the percent codec on code units below 256, and a
    small parser table. *)

Module Sample.

(** [h] ends with [.d], the labels before it free of [@], [/] and [:]. *)
Fixpoint isSubdomainOf (d h : string) : bool :=
  match h with
  | EmptyString => false
  | String c r =>
      (Ascii.eqb c "." && String.eqb r d)
      || (negb (Ascii.eqb c "@" || Ascii.eqb c "/" || Ascii.eqb c ":")
          && isSubdomainOf d r)
  end.

(** A matcher factory: a host matches an entry when it equals it or,
    with [allowSubdomains], when it is one of its sub-domains. *)
Definition matcher (ds : list string) (allowSubdomains : bool)
    (h : string) : bool :=
  existsb (fun d => String.eqb h d || (allowSubdomains && isSubdomainOf d h)) ds.

Definition isUpper (c : ascii) : bool := (65 <=? code c) && (code c <=? 90).

Definition isUnreserved (c : ascii) : bool :=
  isDigit c || isLower c || isUpper c
  || existsb (Ascii.eqb c) (list_ascii_of_string "-_.!~*'()").

Definition hexDigit (n : Z) : ascii :=
  if n <? 10 then chr (48 + n) else chr (55 + n).

Definition pct (b : Z) : string :=
  String "%" (String (hexDigit (b / 16)) (str1 (hexDigit (b mod 16)))).

(** [encodeURIComponent] on these strings: a code unit from 128 is written as the two
    bytes of its UTF-8 form. *)
Fixpoint percentEncode (s : string) : string :=
  match s with
  | EmptyString => EmptyString
  | String c r =>
      (if isUnreserved c then str1 c
       else if code c <? 128 then pct (code c)
       else pct (192 + code c / 64) +:+ pct (128 + code c mod 64))
      +:+ percentEncode r
  end.

Definition hexValue (c : ascii) : option Z :=
  if isDigit c then Some (code c - 48)
  else if (65 <=? code c) && (code c <=? 70) then Some (code c - 55)
  else if (97 <=? code c) && (code c <=? 102) then Some (code c - 87)
  else None.

Definition hexByte (a b : ascii) : option Z :=
  match hexValue a, hexValue b with
  | Some x, Some y => Some (16 * x + y)
  | _, _ => None
  end.

(** [decodeURIComponent] on these strings: [None] for a malformed escape, and for an
    escape sequence denoting a code point from 256, which the strings
    here cannot hold. *)
Fixpoint percentDecode (s : string) : option string :=
  match s with
  | EmptyString => Some EmptyString
  | String "%" (String a (String b r)) =>
      match hexByte a b with
      | None => None
      | Some x =>
          if x <? 128 then String (chr x) <$> percentDecode r
          else if (x =? 194) || (x =? 195) then
            match r with
            | String "%" (String a2 (String b2 r2)) =>
                match hexByte a2 b2 with
                | Some y =>
                    if (128 <=? y) && (y <=? 191)
                    then String (chr ((x - 192) * 64 + (y - 128)))
                           <$> percentDecode r2
                    else None
                | None => None
                end
            | _ => None
            end
          else None
      end
  | String "%" _ => None
  | String c r => String c <$> percentDecode r
  end.

(** [datalib.extend]: every property of [extra] is assigned to [target],
    overwriting or following its properties, and [target] is returned.
    Assigning a property to [undefined] throws a [TypeError]. *)
Fixpoint setProp (q : Query) (k v : string) : Query :=
  match q with
  | [] => [(k, v)]
  | (k', v') :: r => if String.eqb k' k then (k, v) :: r else (k', v') :: setProp r k v
  end.

Definition extend (target : option Query) (extra : Query) : exn + option Query :=
  match target, extra with
  | Some obj, _ => inr (Some (fold_left (fun q kv => setProp q (fst kv) (snd kv)) extra obj))
  | None, [] => inr None
  | None, _ :: _ => inl TypeError
  end.

Definition formatQuery (q : Query) : string :=
  match q with
  | [] => EmptyString
  | (k, v) :: r =>
      fold_left (fun acc kv => acc +:+ "&" +:+ fst kv +:+ "=" +:+ percentEncode (snd kv))
        r ("?" +:+ k +:+ "=" +:+ percentEncode v)
  end.

Definition format (u : UrlParts.t) (_ : Opt.t) : string :=
  toStr (UrlParts.protocol u) +:+ "//" +:+ toStr (UrlParts.host u)
  +:+ UrlParts.pathname u +:+ formatQuery (default [] (UrlParts.query u)).

(** The parser as a table from the URL to its parts; a URL without a
    host is given the wiki's own host and marked [isRelativeHost]. *)
Definition parseWith (table : list (string * UrlParts.t)) (o : Opt.t) : UrlParts.t :=
  match find (fun e => String.eqb (fst e) (Opt.url o)) table with
  | Some e => snd e
  | None => UrlParts.mk None None EmptyString None false
  end.

Definition relative (p path : string) (q : Query) : UrlParts.t :=
  UrlParts.mk (Some "en.wikipedia.org") (Some p) path (Some q) true.

Definition snapshotQuery (width : string) (style : Query) : Query :=
  [("width", width); ("height", "100"); ("zoom", "5"); ("lat", "10"); ("lon", "10")]
  ++ style.

Definition table : list (string * UrlParts.t) :=
  [ ("wikititle:///A%20B%20C", relative "wikititle:" "/A%20B%20C" []);
    ("wikititle:///My_page", relative "wikititle:" "/My_page" []);
    ("wikititle:///", relative "wikititle:" "/" []);
    ("wikititle:///My%7Cpage", relative "wikititle:" "/My%7Cpage" []);
    ("wikititle:///My_page?action=edit",
     relative "wikititle:" "/My_page" [("action", "edit")]);
    ("wikititle:///My%7Cpage?action=edit",
     relative "wikititle:" "/My%7Cpage" [("action", "edit")]);
    ("wikiraw:///", relative "wikiraw:" "/" []);
    ("tabular:///", relative "tabular:" "/" []);
    ("wikiapi:///?action=query", relative "wikiapi:" "/" [("action", "query")]);
    ("geoshape:///?ids=Q16", relative "geoshape:" "/" [("ids", "Q16")]);
    ("mapsnapshot:///?width=5000&height=100&zoom=5&lat=10&lon=10",
     relative "mapsnapshot:" "/" (snapshotQuery "5000" []));
    ("mapsnapshot:///?width=500&height=100&zoom=5&lat=10&lon=10",
     relative "mapsnapshot:" "/" (snapshotQuery "500" []));
    ("mapsnapshot:///?width=5000&height=0&zoom=5&lat=10&lon=10",
     relative "mapsnapshot:" "/"
       [("width", "5000"); ("height", "0"); ("zoom", "5"); ("lat", "10"); ("lon", "10")]);
    ("mapsnapshot:///?width=500&height=100&zoom=5&lat=10&lon=10&style=osm-intl",
     relative "mapsnapshot:" "/" (snapshotQuery "500" [("style", "osm-intl")]));
    ("mapsnapshot:///?width=500&height=100&zoom=5&lat=10&lon=10&style=o",
     relative "mapsnapshot:" "/" (snapshotQuery "500" [("style", "o")]));
    ("mapsnapshot:///?width=500&height=100&zoom=5&lat=10&lon=10&style=OSM",
     relative "mapsnapshot:" "/" (snapshotQuery "500" [("style", "OSM")]));
    ("https://en.wikipedia.org/wiki/Main_Page",
     UrlParts.mk (Some "en.wikipedia.org") (Some "https:") "/wiki/Main_Page" (Some []) false);
    ("https://example.com/data.json",
     UrlParts.mk (Some "example.com") (Some "https:") "/data.json" (Some []) false) ].

Definition wrapper (trusted : bool) : VegaWrapper :=
  {| isTrusted := trusted;
     domains := list_to_map
       [("https", ["wikipedia.org"; "wikimedia.org"]);
        ("geoshape", ["maps.wikimedia.org"]);
        ("tabular", ["commons.wikimedia.org"])];
     domainMap := None;
     objExtender := extend;
     parseUrl := parseWith table;
     formatUrl := format |}.

Definition request (u : string) (type : option string) : Opt.t :=
  Opt.mk u type None false None.

#[global] Instance globals : Globals :=
  {| makeValidator := matcher;
     decodeURIComponent := percentDecode;
     encodeURIComponent := percentEncode |}.

Definition run (trusted : bool) (o : Opt.t) : exn + (string * Opt.t) :=
  fst (sanitizeUrl (wrapper trusted) o ∅).

(** [JSON.stringify] of strings, booleans, [null], arrays and objects
    (no number occurs in the payloads below). *)
Fixpoint stringify (v : value) : string :=
  match v with
  | VStr s => dquote +:+ s +:+ dquote
  | VBool true => "true"
  | VBool false => "false"
  | VArr items =>
      "[" +:+ (fix go (l : list value) : string :=
                 match l with
                 | [] => EmptyString
                 | [x] => stringify x
                 | x :: r => stringify x +:+ "," +:+ go r
                 end) items +:+ "]"
  | VObj props =>
      "{" +:+ (fix go (l : list (string * value)) : string :=
                 match l with
                 | [] => EmptyString
                 | [(k, x)] => dquote +:+ k +:+ dquote +:+ ":" +:+ stringify x
                 | (k, x) :: r =>
                     dquote +:+ k +:+ dquote +:+ ":" +:+ stringify x +:+ "," +:+ go r
                 end) props +:+ "}"
  | _ => "null"
  end.

Definition failed : value :=
  VObj [("error", VObj [("code", VStr "badtitle")])].
Definition warned : value :=
  VObj [("warnings", VObj [("main", VStr "deprecated")]); ("batchcomplete", VBool true)].
(** Payloads whose [error] or [warnings] field holds a falsy value. *)
Definition notFailed : value :=
  VObj [("error", VBool false); ("batchcomplete", VBool true)].
Definition notWarned : value :=
  VObj [("warnings", VStr EmptyString); ("batchcomplete", VBool true)].

(** [JSON.parse] on the payloads used below. *)
Definition parseJson (s : string) : option value :=
  if String.eqb s (stringify failed) then Some failed
  else if String.eqb s (stringify warned) then Some warned
  else if String.eqb s (stringify notFailed) then Some notFailed
  else if String.eqb s (stringify notWarned) then Some notWarned
  else None.

Definition noReshape (tag url : string) (v : value) : exn + value := inr v.
Definition noSparql (s : string) : exn + value := inr (VStr s).

Definition tag (p : string) : Opt.t := Opt.mk EmptyString None (Some p) false None.

Definition enwiki : SanitizedHost.t :=
  SanitizedHost.mk (Some "en.wikipedia.org") "https:".

Definition snapshot (width : string) (style : Query) : Opt.t :=
  request ("mapsnapshot:///?width=" +:+ width +:+ "&height=100&zoom=5&lat=10&lon=10"
           +:+ match style with
               | (_, v) :: _ => "&style=" +:+ v
               | [] => EmptyString
               end) None.


End Sample.


(** ** Computations that do not depend on the cache *)

Section CacheFree.
Context {globals : Globals}.
Variable self : VegaWrapper.

(** [m] gives the same outcome from every cache that holds only matchers
    built by [testHost], and leaves such a cache behind. *)
Definition cacheFree {A} (m : M A) : Prop :=
  exists r, forall vs, cacheOk self vs ->
    exists vs', m vs = (r, vs') /\ cacheOk self vs'.
End CacheFree.

(** ** Exact values of the numeric literals *)


(** ** The protocols of the two actions *)

(** The [case] labels of the data-loading [switch], in source order. *)
Definition fetchProtocols : list string :=
  ["http:"; "https:"; "wikiapi:"; "wikirest:"; "wikiraw:"; "tabular:"; "tabularinfo:";
   "wikifile:"; "wikirawupload:"; "wikidatasparql:"; "geoshape:"; "geoline:";
   "mapsnapshot:"].

(** The [case] labels of the [switch] of the open action. *)
Definition openProtocols : list string := ["http:"; "https:"; "wikititle:"].

Definition unknownProtocolError (url : string) : exn :=
  Error ("Unknown protocol " +:+ url).

Definition openProtocolError : exn :=
  Error (dquote +:+ "open()" +:+ dquote +:+
    " action only allows links with wikititle protocol, e.g. wikititle:///My_page").

(** The protocols whose requests go to the wiki's own [api.php] and ask
    for the CORS origin. *)
Definition corsProtocols : list string :=
  ["wikiapi:"; "wikiraw:"; "tabular:"; "tabularinfo:"].

Definition disabledError (p url : string) : exn :=
  Error (p +:+ ": protocol is disabled: " +:+ url).

Definition hostNotAllowedError (p url : string) : exn :=
  Error (p +:+ ": URL must either be relative (" +:+ p
         +:+ "///...), or use one of the allowed hosts: " +:+ url).


(** ** Page content under [wikiraw:] *)

(** [v[0]]: the first item of an array, the first character of a string,
    the property [0] of an object. *)
Definition getFirst (v : value) : exn + value :=
  match v with
  | VUndefined | VNull => inl TypeError
  | VArr items => inr (default VUndefined (head items))
  | VStr (String c _) => inr (VStr (str1 c))
  | VObj props => inr (lookupProp props "0")
  | _ => inr VUndefined
  end.

Definition andThen (r : exn + value) (f : value -> exn + value) : exn + value :=
  match r with
  | inr v => f v
  | inl e => inl e
  end.

(** The [wikiraw:] case of [parseDataOrThrow] after the API envelope:
    [data.query.pages[0].revisions[0].content] inside a [try] whose
    [catch] throws the content-unavailable error. *)
Definition wikirawContent (url : string) (data : value) : exn + value :=
  match
    andThen (andThen (andThen (andThen (andThen
      (getField data "query")
      (fun v => getField v "pages")) getFirst)
      (fun v => getField v "revisions")) getFirst)
      (fun v => getField v "content")
  with
  | inr content => inr content
  | inl _ => inl (Error ("Page content not available " +:+ url))
  end.

(** ** The loader installed on [datalib.load] *)

(** How a call of the loader ends: the callback is called, or an
    exception leaves the loader or the transport's callback. *)
Inductive Outcome :=
  | Called (c : Callback)
  | Thrown (e : exn).

(** What a call of the loader does: the requests handed to the transport,
    the messages logged and the outcome. *)
Record LoaderRun := {
  requested : list (string * Opt.t);
  logged : list string;
  outcome : Outcome
}.

Section Loader.
Context {globals : Globals}.
Variable self : VegaWrapper.
Variable JSON_parse : string -> option value.
Variable JSON_stringify : value -> string.
Variable reshape : string -> string -> value -> exn + value.
Variable sparql : string -> exn + value.
(** The constructor argument [useXhr] and the two transports of
    [datalib.load]; a transport is given by the error and the payload it
    hands to its callback for a URL and options. *)
Variable useXhr : bool.
Variable xhr http : string -> Opt.t -> option exn * string.

(** [datalib.load.loader(opt, callback)]; [hasCallback] tells whether a
    callback was passed. *)
Definition loader (opt : Opt.t) (hasCallback : bool)
    : gmap string (string -> bool) -> LoaderRun * gmap string (string -> bool) :=
  fun vs =>
    match sanitizeUrl self opt vs with
    | (inl err, vs') =>
        ({| requested := []; logged := [];
            outcome := if hasCallback
                       then Called {| cb_error := Some err; cb_data := VUndefined |}
                       else Thrown err |}, vs')
    | (inr (url, opt), vs') =>
        let '(error, data) := (if useXhr then xhr else http) url opt in
        let '(messages, c) :=
          dataParser JSON_parse JSON_stringify reshape sparql error data opt in
        ({| requested := [(url, opt)]; logged := messages;
            outcome := if hasCallback then Called c else Thrown TypeError |}, vs')
    end.
End Loader.

(** ** A second sample site

    A wrapper with every external service configured and a host alias,
    the requests run on it, and a transport answering with fixed
    payloads. *)

Module Site.

Definition own (p path : string) (q : Query) : UrlParts.t :=
  UrlParts.mk (Some "en.wikipedia.org") (Some p) path (Some q) true.

Definition table : list (string * UrlParts.t) :=
  [ ("wikiraw:///My_Page", own "wikiraw:" "/My_Page" [("x", "1")]);
    ("wikiraw:///My%7CPage", own "wikiraw:" "/My%7CPage" []);
    ("wikiraw:///%", own "wikiraw:" "/%" []);
    ("wikiapi:///?action=query", own "wikiapi:" "/" [("action", "query")]);
    ("wikiapi:///", UrlParts.mk (Some "en.wikipedia.org") (Some "wikiapi:") "/" None true);
    ("wikirest:///api/rest_v1/page/html/Foo",
     own "wikirest:" "/api/rest_v1/page/html/Foo" []);
    ("wikirest:///w/index.php", own "wikirest:" "/w/index.php" []);
    ("wikifile:///Einstein_1921.jpg", own "wikifile:" "/Einstein_1921.jpg" []);
    ("wikititle:///My_page", own "wikititle:" "/My_page" []);
    ("https://en.wikipedia.org/wiki/Main_Page",
     UrlParts.mk (Some "en.wikipedia.org") (Some "https:") "/wiki/Main_Page" (Some []) false);
    ("https://en.wikipedia.org/w/index.php",
     UrlParts.mk (Some "en.wikipedia.org") (Some "https:") "/w/index.php" (Some []) false);
    ("https://en.m.wikipedia.org/wiki/Main_Page",
     UrlParts.mk (Some "en.m.wikipedia.org") (Some "https:") "/wiki/Main_Page" (Some [])
       false);
    ("geoshape:///?ids=Q16&extra=1",
     own "geoshape:" "/" [("ids", "Q16"); ("extra", "1")]);
    ("geoline:///", own "geoline:" "/" []);
    ("wikidatasparql:///?query=SELECT&format=xml",
     own "wikidatasparql:" "/" [("query", "SELECT"); ("format", "xml")]);
    ("wikidatasparql:///", own "wikidatasparql:" "/" []);
    ("wikirawupload://upload.wikimedia.org/wikipedia/commons/3/3e/Einstein_1921.jpg?x=1",
     UrlParts.mk (Some "upload.wikimedia.org") (Some "wikirawupload:")
       "/wikipedia/commons/3/3e/Einstein_1921.jpg" (Some [("x", "1")]) false);
    ("wikirawupload://en.wikipedia.org/logo.png",
     UrlParts.mk (Some "en.wikipedia.org") (Some "wikirawupload:") "/logo.png" (Some [])
       false);
    ("tabular:///Data.tab", own "tabular:" "/Data.tab" []);
    ("gopher://en.wikipedia.org/", 
     UrlParts.mk (Some "en.wikipedia.org") (Some "gopher:") "/" (Some []) false) ].

Definition allDomains : list (string * list string) :=
  [("https", ["wikipedia.org"; "wikimedia.org"; "wikidata.org"]);
   ("geoshape", ["maps.wikimedia.org"]);
   ("tabular:", ["commons.wikimedia.org"]);
   ("wikirawupload", ["upload.wikimedia.org"]);
   ("wikidatasparql", ["query.wikidata.org"])].

Definition wrapperWith (ds : list (string * list string)) (trusted : bool)
    : VegaWrapper :=
  {| isTrusted := trusted;
     domains := list_to_map ds;
     domainMap := Some (list_to_map [("en.m.wikipedia.org", "en.wikipedia.org")]);
     objExtender := Sample.extend;
     parseUrl := Sample.parseWith table;
     formatUrl := Sample.format |}.

Definition wrapper : VegaWrapper := wrapperWith allDomains false.

(** The same site without any external service. *)
Definition bare : VegaWrapper :=
  wrapperWith [("https", ["wikipedia.org"; "wikimedia.org"; "wikidata.org"])] false.

Definition fetch (u : string) : Opt.t := Sample.request u None.
Definition open (u : string) : Opt.t := Sample.request u (Some "open").

Definition enwiki : SanitizedHost.t := Sample.enwiki.

Definition page (revision : list (string * value)) : value :=
  VObj [("batchcomplete", VBool true);
        ("query", VObj [("pages", VArr [VObj [("title", VStr "My Page");
                                              ("revisions", VArr [VObj revision])]])])].

Definition withContent : value := page [("content", VStr "a,b")].
Definition withoutContent : value := page [("contentmodel", VStr "wikitext")].
Definition noPages : value := VObj [("query", VObj [("pages", VArr [])])].

Definition parseJson (s : string) : option value :=
  if String.eqb s "content" then Some withContent
  else if String.eqb s "nocontent" then Some withoutContent
  else if String.eqb s "nopages" then Some noPages
  else if String.eqb s "failed" then Some Sample.failed
  else if String.eqb s "warned" then Some Sample.warned
  else if String.eqb s "null" then Some VNull
  else None.

Definition reshape (tag url : string) (v : value) : exn + value :=
  if String.eqb tag "wikiraw:" then wikirawContent url v else inr v.

(** A transport that knows one URL. *)
Definition transport (payload : string) (url : string) (_ : Opt.t)
    : option exn * string :=
  if String.eqb url
       "https://en.wikipedia.org/w/api.php?action=query&format=json&formatversion=2"
  then (None, payload)
  else (Some (Error "404"), EmptyString).

Definition unused (url : string) (_ : Opt.t) : option exn * string :=
  (Some (Error "Disabled"), EmptyString).

Definition load (payload : string) (o : Opt.t) (hasCallback : bool) : LoaderRun :=
  fst (loader wrapper parseJson Sample.stringify reshape Sample.noSparql
         true (transport payload) unused o hasCallback ∅).

End Site.

(** * Properties *)

(** ** Numbers *)

Example toDouble_tenth : toDouble 1 10 = Finite (7205759403792794 # 72057594037927936).
Proof. vm_compute. reflexivity. Qed.

Example parseFloat_rounds_to_90 :
  gtNum (parseFloat "90.00000000000000000001") 90 = false /\
  gtNum (parseFloat "90.00000000000002") 90 = true /\
  ltNum (parseInt "-0") 0 = false /\
  gtNum (parseInt "5000") 4096 = true.
Proof. vm_compute. repeat split; reflexivity. Qed.

Section Properties.
Context {globals : Globals}.
Variable self : VegaWrapper.

Implicit Types (vs : gmap string (string -> bool)) (h : option string).
Implicit Types (p url : string) (opt : Opt.t) (u : UrlParts.t).

(** ** The cache is transparent *)

Lemma cacheOk_empty : cacheOk self ∅.
Proof. intros p v Hp. rewrite lookup_empty in Hp. discriminate. Qed.

Lemma testHost_spec p h vs :
  cacheOk self vs ->
  exists vs', testHost self p h vs = (inr (allowed self p h), vs') /\ cacheOk self vs'.
Proof.
  intros Hok. unfold testHost, allowed.
  destruct (vs !! p) as [v|] eqn:Hv.
  - destruct (Hok p v Hv) as (ds & -> & ->). eauto.
  - destruct (_getProtocolDomains self p) as [ds|] eqn:Hds; [|eauto].
    eexists; split; [reflexivity|].
    intros q w Hq. destruct (decide (p = q)) as [<-|Hne].
    + rewrite lookup_insert_eq in Hq. injection Hq as <-. eauto.
    + rewrite lookup_insert_ne in Hq by done. eauto.
Qed.

Lemma sanitizeHost_spec h vs :
  cacheOk self vs ->
  exists vs', sanitizeHost self h vs = (inr (resolveHost self h), vs') /\ cacheOk self vs'.
Proof.
  intros Hok. unfold sanitizeHost, resolveHost, bind.
  destruct (testHost_spec "https:" (mapHost self h) vs Hok) as (vs1 & -> & Hok1).
  destruct (allowed self "https:" (mapHost self h)); [eauto|].
  destruct (testHost_spec "http:" (mapHost self h) vs1 Hok1) as (vs2 & -> & Hok2).
  destruct (allowed self "http:" (mapHost self h)); eauto.
Qed.

Lemma validateExternalService_spec u sh url o vs :
  cacheOk self vs ->
  exists vs', _validateExternalService self u sh url o vs
              = (externalService self u sh url o, vs') /\ cacheOk self vs'.
Proof.
  intros Hok. unfold _validateExternalService, externalService.
  set (p := toStr _).
  destruct (_getProtocolDomains self p) as [ds|]; [|unfold throw; eauto].
  unfold bind. destruct (UrlParts.isRelativeHost u).
  - cbn [UrlParts.host UrlParts.set_host].
    destruct (sanitizeHost_spec (head ds) vs Hok) as (vs1 & -> & Hok1).
    destruct (resolveHost self (head ds)) as [r|]; [|unfold throw; eauto].
    unfold ret.
    match goal with |- context [testHost self p ?x vs1] =>
      destruct (testHost_spec p x vs1 Hok1) as (vs2 & -> & Hok2) end.
    match goal with |- context [if ?b then _ else _] => destruct b end;
      unfold throw; eauto.
  - unfold ret.
    match goal with |- context [testHost self p ?x vs] =>
      destruct (testHost_spec p x vs Hok) as (vs2 & -> & Hok2) end.
    match goal with |- context [if ?b then _ else _] => destruct b end;
      unfold throw; eauto.
Qed.

(** ** The common prefix of [sanitizeUrl] *)

Lemma sanitizeParts_unlisted opt vs :
  cacheOk self vs ->
  resolveHost self (UrlParts.host (parsed self opt)) = None ->
  exists vs', sanitizeParts self opt vs
              = (inl (unlistedError (Opt.url (repaired opt))), vs').
Proof.
  intros Hok Hnone. unfold sanitizeParts, bind.
  destruct (sanitizeHost_spec (UrlParts.host (parseUrl self (repaired opt))) vs Hok)
    as (vs1 & Hs & _).
  unfold repaired in Hs. rewrite Hs. unfold parsed, repaired in Hnone.
  rewrite Hnone. unfold throw. eauto.
Qed.

Lemma sanitizeParts_resolved opt vs sh :
  cacheOk self vs ->
  resolveHost self (UrlParts.host (parsed self opt)) = Some sh ->
  exists vs1, cacheOk self vs1 /\
    sanitizeParts self opt vs =
      (if bool_decide (Opt.type opt = Some "open")
       then openAction (adopted self opt sh) (tagged self opt sh) sh
              (relativeProtocol self opt)
       else fetchAction self (adopted self opt sh) (tagged self opt sh) sh) vs1.
Proof.
  intros Hok Hsome. unfold sanitizeParts, bind.
  destruct (sanitizeHost_spec (UrlParts.host (parseUrl self (repaired opt))) vs Hok)
    as (vs1 & Hs & Hok1).
  unfold repaired in Hs. rewrite Hs. unfold parsed, repaired in Hsome.
  rewrite Hsome. exists vs1. split; [exact Hok1|].
  unfold tagged, adopted, relativeProtocol, parsed, repaired.
  cbn [UrlParts.protocol UrlParts.set_host Opt.type Opt.set_url Opt.set_graphProtocol].
  destruct (truthy (UrlParts.protocol (parseUrl self _))); reflexivity.
Qed.

Lemma sanitizeUrl_of_parts opt vs :
  fst (sanitizeUrl self opt vs) =
    match fst (sanitizeParts self opt vs) with
    | inr r => inr (formatUrl self (fst r) (snd r), snd r)
    | inl e => inl e
    end.
Proof.
  unfold sanitizeUrl, bind, ret.
  destruct (sanitizeParts self opt vs) as [[e|r] vs']; reflexivity.
Qed.

(** ** What a resolved host guarantees *)

Lemma resolveHost_Some h sh :
  resolveHost self h = Some sh ->
  SanitizedHost.host sh = mapHost self h /\
  (SanitizedHost.protocol sh = "https:" \/ SanitizedHost.protocol sh = "http:") /\
  allowed self (SanitizedHost.protocol sh) (SanitizedHost.host sh) = true.
Proof.
  unfold resolveHost.
  destruct (allowed self "https:" (mapHost self h)) eqn:E1.
  - intros [= <-]. cbn. auto.
  - destruct (allowed self "http:" (mapHost self h)) eqn:E2; [|discriminate].
    intros [= <-]. cbn. auto.
Qed.

Lemma resolveHost_None h :
  allowed self "https:" (mapHost self h) = false ->
  allowed self "http:" (mapHost self h) = false ->
  resolveHost self h = None.
Proof. intros H1 H2. unfold resolveHost. rewrite H1, H2. reflexivity. Qed.

Lemma validated_resolved u sh :
  resolveHost self (UrlParts.host u) = Some sh \/
    (exists h, resolveHost self h = Some sh /\ UrlParts.host u = SanitizedHost.host sh) ->
  UrlParts.protocol u = Some (SanitizedHost.protocol sh) ->
  validated self u.
Proof.
  intros [Hr|(h & Hr & Hh)] Hp; exists (SanitizedHost.protocol sh);
    destruct (resolveHost_Some _ _ Hr) as (_ & Hs & Ha).
  - eauto 6.
  - rewrite Hh. auto.
Qed.

Lemma externalService_inv u sh url o u' :
  externalService self u sh url o = inr u' ->
  UrlParts.pathname u' = UrlParts.pathname u /\
  UrlParts.query u' = UrlParts.query u /\
  ((exists h, resolveHost self h = Some sh /\ UrlParts.host u = SanitizedHost.host sh) ->
   validated self u').
Proof.
  unfold externalService. set (p := toStr _).
  destruct (_getProtocolDomains self p) as [ds|]; [|discriminate].
  destruct (UrlParts.isRelativeHost u).
  - destruct (resolveHost self (head ds)) as [r|] eqn:Hr; [|discriminate].
    destruct (allowed self p _); [|discriminate].
    intros [= <-]. cbn. repeat split. intros _.
    apply (validated_resolved _ r); cbn; auto.
  - destruct (allowed self p _); [|discriminate].
    intros [= <-]. cbn. repeat split. intros Hsh.
    apply (validated_resolved _ sh); cbn; auto.
Qed.

(** ** Every successful path keeps a validated host *)

Lemma wikititleCase_inv u o sh d vs parts o' vs' :
  wikititleCase u o sh d vs = (inr (parts, o'), vs') ->
  UrlParts.host parts = UrlParts.host u /\
  UrlParts.protocol parts = Some (SanitizedHost.protocol sh).
Proof.
  unfold wikititleCase, throw, ret.
  destruct (UrlParts.query u) as [q|]; [|discriminate].
  destruct (negb _); [discriminate|].
  destruct (negb _); [discriminate|].
  intros [= <- _ _]. cbn. auto.
Qed.

Lemma openAction_inv u o sh rel vs parts o' vs' :
  openAction u o sh rel vs = (inr (parts, o'), vs') ->
  UrlParts.host parts = UrlParts.host u /\
  UrlParts.protocol parts = Some (SanitizedHost.protocol sh).
Proof.
  unfold openAction, throw.
  destruct (decodeURIComponent _) as [d|]; [|discriminate].
  repeat match goal with
         | |- (if ?b then _ else _) _ = _ -> _ => destruct b
         end;
    try discriminate; apply wikititleCase_inv.
Qed.

Ltac step H :=
  match type of H with
  | (if ?b then _ else _) _ = _ => destruct b eqn:?
  | match ?x with Some _ => _ | None => _ end _ = _ => destruct x eqn:?
  | throw _ _ = _ => discriminate H
  | lift _ _ = _ => unfold lift in H
  | bind (lift ?r) _ _ = _ =>
      unfold bind, lift in H; destruct r eqn:?; cbv beta iota in H; [discriminate H|]
  | ret _ _ = (inr _, _) => unfold ret in H; injection H as <- <- <-
  | (fun _ => _) _ = _ => cbv beta in H
  | context [lift ?r _] =>
      unfold lift in H; destruct r eqn:?; cbv beta iota in H; [discriminate H|]
  end.

Lemma fetchAction_validated u o sh vs parts o' vs' :
  cacheOk self vs ->
  isTrusted self = false ->
  (exists h, resolveHost self h = Some sh /\ UrlParts.host u = SanitizedHost.host sh) ->
  fetchAction self u o sh vs = (inr (parts, o'), vs') ->
  validated self parts.
Proof.
  intros Hok Hunt Hsh Hrun.
  assert (Hdirect : forall w, UrlParts.host w = UrlParts.host u ->
            UrlParts.protocol w = Some (SanitizedHost.protocol sh) -> validated self w).
  { intros w Hw Hp. destruct Hsh as (h & Hr & Hh).
    apply (validated_resolved _ sh); [right; exists h; split; congruence|exact Hp]. }
  assert (Hsame : forall w w', validated self w' ->
            UrlParts.host w = UrlParts.host w' ->
            UrlParts.protocol w = UrlParts.protocol w' -> validated self w).
  { intros w w' Hv Hh Hp. unfold validated. rewrite Hh, Hp. exact Hv. }
  unfold fetchAction in Hrun. rewrite Hunt in Hrun. cbn [negb] in Hrun.
  repeat step Hrun; try (apply Hdirect; reflexivity);
    unfold bind in Hrun;
    match type of Hrun with
    | context [_validateExternalService self ?a ?b ?c ?d vs] =>
        destruct (validateExternalService_spec a b c d vs Hok) as (vs1 & Hv & _);
        rewrite Hv in Hrun;
        destruct (externalService self a b c d) as [e|u'] eqn:He; [discriminate|];
        apply externalService_inv in He as (_ & _ & Hval);
        specialize (Hval Hsh)
    end;
    repeat step Hrun; try (apply (Hsame _ u' Hval); reflexivity).
  unfold mapsnapshotCase in Hrun.
  repeat match type of Hrun with
         | (match ?x with _ => _ end, _) = _ => destruct x; try discriminate
         end.
  injection Hrun as <- <- <-. apply (Hsame _ u' Hval); reflexivity.
Qed.

(** C1. For an untrusted caller, a request whose renamed host no
    configured scheme accepts fails with the unlisted-host error and no
    URL is produced; and whenever the translation succeeds, the parts
    handed to the formatter carry a transport scheme that is [https:] or
    [http:] and a host that went through the allowlist for that scheme:
    [testHost] accepted it, or [sanitizeHost] accepted it and resolved
    that scheme. *)
Theorem untrusted_host_validated opt vs :
  cacheOk self vs ->
  isTrusted self = false ->
  (allowed self "https:" (mapHost self (UrlParts.host (parsed self opt))) = false ->
   allowed self "http:" (mapHost self (UrlParts.host (parsed self opt))) = false ->
   fst (sanitizeUrl self opt vs) = inl (unlistedError (Opt.url (repaired opt)))) /\
  (forall parts o, fst (sanitizeParts self opt vs) = inr (parts, o) ->
     fst (sanitizeUrl self opt vs) = inr (formatUrl self parts o, o) /\
     validated self parts).
Proof.
  intros Hok Hunt. rewrite sanitizeUrl_of_parts. split.
  - intros H1 H2.
    destruct (sanitizeParts_unlisted opt vs Hok (resolveHost_None _ H1 H2)) as (vs' & ->).
    reflexivity.
  - intros parts o Hrun. rewrite Hrun. split; [reflexivity|].
    destruct (resolveHost self (UrlParts.host (parsed self opt))) as [sh|] eqn:Hr.
    + destruct (sanitizeParts_resolved opt vs sh Hok Hr) as (vs1 & Hok1 & Hs).
      rewrite Hs in Hrun.
      assert (Hsh : exists h, resolveHost self h = Some sh /\
                UrlParts.host (adopted self opt sh) = SanitizedHost.host sh).
      { eexists; split; [exact Hr|]. unfold adopted.
        destruct (truthy _); reflexivity. }
      match type of Hrun with
      | fst ?m = _ => destruct m as [[e|[parts' o']] vs2] eqn:Hm
      end; [discriminate|].
      cbn in Hrun. injection Hrun as -> ->.
      destruct (bool_decide _).
      * apply openAction_inv in Hm as (Hh & Hp).
        destruct Hsh as (h & Hr' & Hh').
        apply (validated_resolved _ sh); [right; exists h; split; congruence|exact Hp].
      * eapply fetchAction_validated; eauto.
    + destruct (sanitizeParts_unlisted opt vs Hok Hr) as (vs' & Hs).
      rewrite Hs in Hrun. discriminate.
Qed.

(** ** Raw [http:] and [https:] requests *)

(** C2. A normal fetch whose host is allowlisted and whose transport
    scheme, once resolved, is [http:] or [https:]: an untrusted wrapper
    throws the untrusted-protocol error; a trusted wrapper formats the
    parts as parsed, with the pathname, the query and the resolved
    scheme untouched (only the renamed host is adopted). *)
Theorem http_fetch_requires_trust opt vs sh :
  cacheOk self vs ->
  Opt.type opt <> Some "open" ->
  resolveHost self (UrlParts.host (parsed self opt)) = Some sh ->
  UrlParts.protocol (adopted self opt sh) = Some "http:" \/
    UrlParts.protocol (adopted self opt sh) = Some "https:" ->
  (isTrusted self = false -> fst (sanitizeUrl self opt vs) = inl untrustedError) /\
  (isTrusted self = true ->
     fst (sanitizeUrl self opt vs)
       = inr (formatUrl self (adopted self opt sh) (tagged self opt sh),
              tagged self opt sh) /\
     UrlParts.pathname (adopted self opt sh) = UrlParts.pathname (parsed self opt) /\
     UrlParts.query (adopted self opt sh) = UrlParts.query (parsed self opt) /\
     (truthy (UrlParts.protocol (parsed self opt)) = true ->
        UrlParts.protocol (adopted self opt sh) = UrlParts.protocol (parsed self opt))).
Proof.
  intros Hok Hty Hr Hp. rewrite sanitizeUrl_of_parts.
  destruct (sanitizeParts_resolved opt vs sh Hok Hr) as (vs1 & _ & ->).
  rewrite bool_decide_eq_false_2 by exact Hty.
  assert (Hhttp : (toStr (UrlParts.protocol (adopted self opt sh)) =? "http:")%string
                  || (toStr (UrlParts.protocol (adopted self opt sh)) =? "https:")%string
                  = true)
    by (destruct Hp as [-> | ->]; reflexivity).
  unfold fetchAction. rewrite Hhttp. split; intros ->; cbn [negb].
  - reflexivity.
  - split; [reflexivity|]. unfold adopted.
    cbn [UrlParts.protocol UrlParts.set_host].
    destruct (truthy (UrlParts.protocol (parsed self opt))); cbn; auto.
    repeat split. discriminate.
Qed.

(** C9. The allowlist check comes before the trust check: whatever
    [isTrusted] is, a request whose renamed host is accepted neither for
    [https:] nor for [http:] fails with the unlisted-host error; and a
    raw [http:] or [https:] fetch that a trusted wrapper lets through
    targets a host the allowlist accepted for one of the two schemes. *)
Theorem trusted_http_still_allowlisted opt vs :
  cacheOk self vs ->
  (allowed self "https:" (mapHost self (UrlParts.host (parsed self opt))) = false ->
   allowed self "http:" (mapHost self (UrlParts.host (parsed self opt))) = false ->
   fst (sanitizeUrl self opt vs) = inl (unlistedError (Opt.url (repaired opt)))) /\
  (forall parts o,
     isTrusted self = true ->
     Opt.type opt <> Some "open" ->
     UrlParts.protocol (parsed self opt) = Some "http:" \/
       UrlParts.protocol (parsed self opt) = Some "https:" ->
     fst (sanitizeParts self opt vs) = inr (parts, o) ->
     allowed self "https:" (UrlParts.host parts) = true \/
     allowed self "http:" (UrlParts.host parts) = true).
Proof.
  intros Hok. split.
  - intros H1 H2. rewrite sanitizeUrl_of_parts.
    destruct (sanitizeParts_unlisted opt vs Hok (resolveHost_None _ H1 H2)) as (vs' & ->).
    reflexivity.
  - intros parts o Htr Hty Hp Hrun.
    destruct (resolveHost self (UrlParts.host (parsed self opt))) as [sh|] eqn:Hr.
    + destruct (sanitizeParts_resolved opt vs sh Hok Hr) as (vs1 & _ & Hs).
      rewrite Hs, bool_decide_eq_false_2 in Hrun by exact Hty.
      assert (Ha : adopted self opt sh
                   = UrlParts.set_host (SanitizedHost.host sh) (parsed self opt)).
      { unfold adopted. cbn [UrlParts.protocol UrlParts.set_host].
        destruct Hp as [-> | ->]; reflexivity. }
      unfold fetchAction in Hrun. rewrite Ha, Htr in Hrun.
      cbn [UrlParts.protocol UrlParts.set_host] in Hrun.
      destruct (resolveHost_Some _ _ Hr) as (_ & Hs' & Hall).
      destruct Hp as [Hp | Hp]; rewrite Hp in Hrun; cbn in Hrun;
        injection Hrun as <- _; cbn [UrlParts.host];
        destruct Hs' as [E | E]; rewrite E in Hall; auto.
    + destruct (sanitizeParts_unlisted opt vs Hok Hr) as (vs' & Hs).
      rewrite Hs in Hrun. discriminate.
Qed.

(** ** The matcher of a protocol *)

(** C3, as the code has it. For a protocol with configured domains,
    [testHost] answers with the matcher [makeValidator domains flag] and
    leaves that matcher in the cache; the flag is [true] for [https:]
    and [http:] and [false] for every other protocol. *)
Theorem testHost_matcher_flag p h vs ds :
  cacheOk self vs ->
  _getProtocolDomains self p = Some ds ->
  exists vs',
    testHost self p h vs = (inr (makeValidator ds (isHttp p) (toStr h)), vs') /\
    vs' !! p = Some (makeValidator ds (isHttp p)) /\
    (p = "https:" \/ p = "http:" -> isHttp p = true) /\
    (p <> "https:" -> p <> "http:" -> isHttp p = false).
Proof.
  intros Hok Hds. unfold testHost.
  assert (Hflag : (p = "https:" \/ p = "http:" -> isHttp p = true) /\
                  (p <> "https:" -> p <> "http:" -> isHttp p = false)).
  { unfold isHttp. split.
    - intros [-> | ->]; reflexivity.
    - intros H1 H2. apply String.eqb_neq in H1, H2. rewrite H1, H2. reflexivity. }
  destruct (vs !! p) as [v|] eqn:Hv.
  - destruct (Hok p v Hv) as (ds' & Hds' & ->).
    rewrite Hds in Hds'. injection Hds' as <-.
    exists vs. auto.
  - rewrite Hds. eexists. split; [reflexivity|].
    rewrite lookup_insert_eq. auto.
Qed.

(** ** Titles *)

Lemma hasPipe_not_title s : hasPipe s = true -> isTitlePath s = false.
Proof.
  unfold hasPipe, isTitlePath. intros Hp.
  destruct s as [|c r]; [reflexivity|].
  destruct (Ascii.eqb_spec c "/") as [-> | Hne].
  - cbn in Hp. apply negb_true_iff in Hp. rewrite Hp. apply andb_false_r.
  - destruct c as [[] [] [] [] [] [] [] []]; try reflexivity. congruence.
Qed.

Lemma title_isTitlePath c title :
  hasPipe (String c title) = false -> isTitlePath (String "/" (String c title)) = true.
Proof.
  unfold hasPipe, isTitlePath. intros Hp. apply negb_false_iff in Hp.
  rewrite Hp. reflexivity.
Qed.


Lemma adopted_fields opt sh :
  UrlParts.pathname (adopted self opt sh) = UrlParts.pathname (parsed self opt) /\
  UrlParts.query (adopted self opt sh) = UrlParts.query (parsed self opt) /\
  UrlParts.host (adopted self opt sh) = SanitizedHost.host sh /\
  UrlParts.isRelativeHost (adopted self opt sh)
    = UrlParts.isRelativeHost (parsed self opt).
Proof. unfold adopted. destruct (truthy _); cbn; auto. Qed.



(** ** Map snapshots *)





End Properties.

(** ** The MediaWiki API envelope *)

Section NormalizerProperties.
Variable JSON_parse : string -> option value.
Variable JSON_stringify : value -> string.
Variable reshape : string -> string -> value -> exn + value.
Variable sparql : string -> exn + value.

(** C8, amended. Under the [wikiapi:] tag the payload is parsed as JSON.
    The code tests [if (data.error)] and [if (data.warnings)], so a field
    counts only when it holds a truthy value.  When the [error] field of
    the parsed value is truthy, such as the object the API sends, the
    callback receives an error carrying the field's serialisation and no
    data, and nothing is logged.  Otherwise, the [error] field being
    absent or falsy, the callback receives the parsed data and no error;
    the [warnings] field, when it is truthy, is the one message handed
    to the logger, and nothing is logged when it is absent or falsy. *)
Theorem wikiapi_error_and_warnings payload opt data :
  Opt.graphProtocol opt = Some "wikiapi:" ->
  JSON_parse payload = Some data ->
  (forall err, getField data "error" = inr err -> isTruthy err = true ->
     dataParser JSON_parse JSON_stringify reshape sparql None payload opt
     = ([], {| cb_error := Some (Error ("API error: " +:+ JSON_stringify err));
               cb_data := VUndefined |})) /\
  (forall err w, getField data "error" = inr err -> isTruthy err = false ->
     getField data "warnings" = inr w ->
     dataParser JSON_parse JSON_stringify reshape sparql None payload opt
     = ((if isTruthy w then ["API warnings: " +:+ JSON_stringify w] else []),
        {| cb_error := None; cb_data := data |})).
Proof.
  intros Htag Hparse. unfold dataParser, parseDataOrThrow, parseMWApiResponse.
  rewrite Htag, Hparse. cbn [bool_decide decide_rel]. split.
  - intros err He Ht. rewrite bool_decide_eq_true_2 by reflexivity.
    rewrite He, Ht. reflexivity.
  - intros err w He Ht Hw. rewrite bool_decide_eq_true_2 by reflexivity.
    rewrite He, Ht, Hw. destruct (isTruthy w); reflexivity.
Qed.
End NormalizerProperties.

(** * The wrapper on concrete requests *)

Lemma untrusted_host_validated_witness :
  Sample.run false (Sample.request "https://example.com/data.json" None)
    = inl (unlistedError "https://example.com/data.json") /\
  Sample.run false (Sample.request "wikiapi:///?action=query" None)
    = inr ("https://en.wikipedia.org/w/api.php?action=query&format=json&formatversion=2",
           Opt.mk "wikiapi:///?action=query" None (Some "wikiapi:") true None) /\
  validated (Sample.wrapper false)
    (UrlParts.mk (Some "en.wikipedia.org") (Some "https:") "/w/api.php"
       (Some [("action", "query"); ("format", "json"); ("formatversion", "2")]) true).
Proof.
  split.
  - apply (proj1 (untrusted_host_validated (Sample.wrapper false)
                    (Sample.request "https://example.com/data.json" None) ∅
                    (cacheOk_empty _) eq_refl)); vm_compute; reflexivity.
  - apply (proj2 (untrusted_host_validated (Sample.wrapper false)
                    (Sample.request "wikiapi:///?action=query" None) ∅
                    (cacheOk_empty _) eq_refl)
             (UrlParts.mk (Some "en.wikipedia.org") (Some "https:") "/w/api.php"
                (Some [("action", "query"); ("format", "json"); ("formatversion", "2")])
                true)
             (Opt.mk "wikiapi:///?action=query" None (Some "wikiapi:") true None)).
    vm_compute. reflexivity.
Defined.

Lemma http_fetch_requires_trust_witness :
  Sample.run false (Sample.request "https://en.wikipedia.org/wiki/Main_Page" None)
    = inl untrustedError /\
  Sample.run true (Sample.request "https://en.wikipedia.org/wiki/Main_Page" None)
    = inr ("https://en.wikipedia.org/wiki/Main_Page",
           Opt.mk "https://en.wikipedia.org/wiki/Main_Page" None (Some "https:") false None).
Proof.
  split.
  - apply (proj1 (http_fetch_requires_trust (Sample.wrapper false)
             (Sample.request "https://en.wikipedia.org/wiki/Main_Page" None) ∅
             Sample.enwiki (cacheOk_empty _) ltac:(discriminate) eq_refl
             (or_intror eq_refl)) eq_refl).
  - apply (proj1 (proj2 (http_fetch_requires_trust (Sample.wrapper true)
             (Sample.request "https://en.wikipedia.org/wiki/Main_Page" None) ∅
             Sample.enwiki (cacheOk_empty _) ltac:(discriminate) eq_refl
             (or_intror eq_refl)) eq_refl)).
Defined.

(** C3 as stated fails: with a matcher that honours its flag, a
    sub-domain of the configured [geoshape] host is refused under
    [geoshape:], where the rule of [https:] and [http:] accepts it. *)
Lemma custom_scheme_matcher_not_subdomain_aware :
  _getProtocolDomains (Sample.wrapper false) "geoshape:" = Some ["maps.wikimedia.org"] /\
  fst (testHost (Sample.wrapper false) "geoshape:" (Some "a.maps.wikimedia.org") ∅)
    = inr false /\
  makeValidator ["maps.wikimedia.org"] true "a.maps.wikimedia.org" = true /\
  fst (testHost (Sample.wrapper false) "https:" (Some "maps.wikimedia.org") ∅)
    = inr true.
Proof. vm_compute. repeat split; reflexivity. Qed.

Lemma testHost_matcher_flag_witness :
  exists vs',
    testHost (Sample.wrapper false) "geoshape:" (Some "a.maps.wikimedia.org") ∅
      = (inr (makeValidator ["maps.wikimedia.org"] (isHttp "geoshape:")
                (toStr (Some "a.maps.wikimedia.org"))), vs') /\
    vs' !! "geoshape:" = Some (makeValidator ["maps.wikimedia.org"] (isHttp "geoshape:")) /\
    ("geoshape:" = "https:" \/ "geoshape:" = "http:" -> isHttp "geoshape:" = true) /\
    ("geoshape:" <> "https:" -> "geoshape:" <> "http:" -> isHttp "geoshape:" = false).
Proof.
  apply (testHost_matcher_flag (Sample.wrapper false) "geoshape:"
           (Some "a.maps.wikimedia.org") ∅ ["maps.wikimedia.org"] (cacheOk_empty _)).
  vm_compute. reflexivity.
Defined.





(** C6 on the code. With the five parameters valid, the style
    [osm-intl], every character of which is in the class, is refused,
    while the one-character style [o] is accepted and leads the path: the
    pattern of the style check has no quantifier. *)
Theorem mapsnapshot_style_single_character :
  allChars isStyleChar "osm-intl" = true /\
  Sample.run false (Sample.snapshot "500" [("style", "osm-intl")]) = inl styleError /\
  Sample.run false (Sample.snapshot "500" [("style", "o")])
    = inr ("https://maps.wikimedia.org/img/o,5,10,10,500x100@2x.png",
           Opt.mk "mapsnapshot:///?width=500&height=100&zoom=5&lat=10&lon=10&style=o"
             None (Some "mapsnapshot:") false None).
Proof. vm_compute. repeat split; reflexivity. Qed.

(** C7 on the code. The open action on the title [A B C] replaces the
    first space only: the pathname is [/wiki/A_B%20C], not the encoding
    [/wiki/A_B_C] of the title with every space turned into an
    underscore. *)
Theorem open_replaces_first_space_only :
  decodeURIComponent "/A%20B%20C" = Some "/A B C" /\
  Sample.run false (Sample.request "wikititle:///A%20B%20C" (Some "open"))
    = inr ("https://en.wikipedia.org/wiki/A_B%20C",
           Opt.mk "wikititle:///A%20B%20C" (Some "open") (Some "wikititle:") false None) /\
  "/wiki/" +:+ encodeURIComponent (replaceAll " " "_" "A B C") = "/wiki/A_B_C".
Proof. vm_compute. repeat split; reflexivity. Qed.

(** C8 as stated fails: a payload that has an [error] field holding
    [false] is handed to the callback as data, without an error; and a
    payload that has a [warnings] field holding the empty string is
    returned with nothing sent to the logger. *)
Lemma wikiapi_falsy_fields_ignored :
  getField Sample.notFailed "error" = inr (VBool false) /\
  dataParser Sample.parseJson Sample.stringify Sample.noReshape Sample.noSparql None
    (Sample.stringify Sample.notFailed) (Sample.tag "wikiapi:")
  = ([], {| cb_error := None; cb_data := Sample.notFailed |}) /\
  getField Sample.notWarned "warnings" = inr (VStr EmptyString) /\
  dataParser Sample.parseJson Sample.stringify Sample.noReshape Sample.noSparql None
    (Sample.stringify Sample.notWarned) (Sample.tag "wikiapi:")
  = ([], {| cb_error := None; cb_data := Sample.notWarned |}).
Proof. vm_compute. repeat split; reflexivity. Qed.

Lemma wikiapi_error_and_warnings_witness :
  dataParser Sample.parseJson Sample.stringify Sample.noReshape Sample.noSparql None
    (Sample.stringify Sample.failed) (Sample.tag "wikiapi:")
  = ([], {| cb_error := Some (Error ("API error: " +:+ Sample.stringify
                                       (VObj [("code", VStr "badtitle")])));
            cb_data := VUndefined |}) /\
  dataParser Sample.parseJson Sample.stringify Sample.noReshape Sample.noSparql None
    (Sample.stringify Sample.warned) (Sample.tag "wikiapi:")
  = (["API warnings: " +:+ Sample.stringify (VObj [("main", VStr "deprecated")])],
     {| cb_error := None; cb_data := Sample.warned |}).
Proof.
  split.
  - refine (proj1 (wikiapi_error_and_warnings Sample.parseJson Sample.stringify
              Sample.noReshape Sample.noSparql (Sample.stringify Sample.failed)
              (Sample.tag "wikiapi:") Sample.failed _ _)
              (VObj [("code", VStr "badtitle")]) _ _);
      vm_compute; reflexivity.
  - refine (proj2 (wikiapi_error_and_warnings Sample.parseJson Sample.stringify
              Sample.noReshape Sample.noSparql (Sample.stringify Sample.warned)
              (Sample.tag "wikiapi:") Sample.warned _ _)
              VUndefined (VObj [("main", VStr "deprecated")]) _ _ _);
      vm_compute; reflexivity.
Defined.

Lemma trusted_http_still_allowlisted_witness :
  Sample.run true (Sample.request "https://example.com/data.json" None)
    = inl (unlistedError "https://example.com/data.json") /\
  (allowed (Sample.wrapper true) "https:" (Some "en.wikipedia.org") = true \/
   allowed (Sample.wrapper true) "http:" (Some "en.wikipedia.org") = true).
Proof.
  split.
  - apply (proj1 (trusted_http_still_allowlisted (Sample.wrapper true)
                    (Sample.request "https://example.com/data.json" None) ∅
                    (cacheOk_empty _))); vm_compute; reflexivity.
  - refine (proj2 (trusted_http_still_allowlisted (Sample.wrapper true)
                     (Sample.request "https://en.wikipedia.org/wiki/Main_Page" None) ∅
                     (cacheOk_empty _))
              (UrlParts.mk (Some "en.wikipedia.org") (Some "https:") "/wiki/Main_Page"
                 (Some []) false)
              (Opt.mk "https://en.wikipedia.org/wiki/Main_Page" None (Some "https:")
                 false None) _ _ _ _);
      try discriminate; try (right; vm_compute; reflexivity); vm_compute; reflexivity.
Defined.


(** * Further properties *)

(** ** Protocol names with and without the colon *)

Lemma removeColon_cons c r :
  r <> EmptyString -> removeColon (String c r) = String c (removeColon r).
Proof. destruct r; [congruence|reflexivity]. Qed.

Lemma app_nonempty p q : q <> EmptyString -> p +:+ q <> EmptyString.
Proof. destruct p; [auto|discriminate]. Qed.

Lemma removeColon_colon k : removeColon (k +:+ ":") = k.
Proof.
  induction k as [|c k IH]; [reflexivity|].
  change (String c k +:+ ":") with (String c (k +:+ ":")).
  rewrite removeColon_cons by (apply app_nonempty; discriminate).
  rewrite IH. reflexivity.
Qed.

Lemma removeColon_other p c :
  c <> ":"%char -> removeColon (p +:+ str1 c) = p +:+ str1 c.
Proof.
  intros Hc. induction p as [|a p IH].
  - change ((if Ascii.eqb c ":" then EmptyString else str1 c) = str1 c).
    destruct (Ascii.eqb_spec c ":"); [contradiction|reflexivity].
  - change (String a p +:+ str1 c) with (String a (p +:+ str1 c)).
    rewrite removeColon_cons by (apply app_nonempty; discriminate).
    rewrite IH. reflexivity.
Qed.

(** ** The repair of compound schemes *)

Lemma stripPrefix_Some p s r : stripPrefix p s = Some r -> s = p +:+ r.
Proof.
  revert s. induction p as [|a p IH]; intros s; simpl.
  - intros [= ->]. reflexivity.
  - destruct s as [|b s]; [discriminate|].
    destruct (Ascii.eqb_spec a b) as [->|]; [|discriminate].
    intros H. rewrite (IH _ H). reflexivity.
Qed.

Lemma stripPrefix_app p r : stripPrefix p (p +:+ r) = Some r.
Proof.
  induction p as [|a p IH]; simpl; [reflexivity|].
  rewrite Ascii.eqb_refl. exact IH.
Qed.

Lemma span_spec f s a b :
  span f s = (a, b) ->
  s = a +:+ b /\ allChars f a = true /\
  match b with String c _ => f c = false | EmptyString => True end.
Proof.
  revert a b. induction s as [|c s IH]; intros a b; simpl.
  - intros [= <- <-]. auto.
  - destruct (f c) eqn:Hc.
    + destruct (span f s) as [a' b'] eqn:Hs. intros [= <- <-].
      destruct (IH _ _ eq_refl) as (-> & Ha & Hb). simpl. rewrite Hc. auto.
    + intros [= <- <-]. simpl. rewrite Hc. auto.
Qed.

Lemma span_app f a b :
  allChars f a = true ->
  match b with String c _ => f c = false | EmptyString => True end ->
  span f (a +:+ b) = (a, b).
Proof.
  intros Ha Hb. induction a as [|c a IH]; simpl.
  - destruct b as [|c b]; [reflexivity|]. simpl. rewrite Hb. reflexivity.
  - simpl in Ha. apply andb_true_iff in Ha as [Hc Ha]. rewrite Hc, (IH Ha). reflexivity.
Qed.

(** X4. The repair of a malformed compound URL: for a non-empty
    lower-case scheme, [scheme:http://rest] and [scheme:https://rest]
    become [scheme://rest]; repairing twice is repairing once; and the
    repair neither makes nor unmakes a protocol-relative URL. *)
Theorem repairUrl_compound_idempotent :
  (forall scheme rest, scheme <> EmptyString -> allChars isLower scheme = true ->
     repairUrl (scheme +:+ ":http://" +:+ rest) = scheme +:+ "://" +:+ rest /\
     repairUrl (scheme +:+ ":https://" +:+ rest) = scheme +:+ "://" +:+ rest) /\
  (forall u, repairUrl (repairUrl u) = repairUrl u) /\
  (forall u, isProtocolRelative (repairUrl u) = isProtocolRelative u).
Proof.
  assert (Hfix : forall scheme tail, scheme <> EmptyString ->
            allChars isLower scheme = true ->
            repairUrl (scheme +:+ "://" +:+ tail) = scheme +:+ "://" +:+ tail).
  { intros scheme tail Hne Hl. unfold repairUrl.
    rewrite (span_app isLower scheme ("://" +:+ tail) Hl eq_refl).
    destruct scheme; [congruence|]. reflexivity. }
  assert (Hcases : forall u, repairUrl u = u \/
            exists c scheme rest tail, allChars isLower (String c scheme) = true /\
              u = String c scheme +:+ rest /\
              repairUrl u = String c scheme +:+ "://" +:+ tail).
  { intros u. unfold repairUrl. destruct (span isLower u) as [scheme rest] eqn:Hs.
    destruct (span_spec _ _ _ _ Hs) as (Hu & Hl & _).
    destruct scheme as [|c scheme]; [auto|].
    destruct (stripPrefix ":http" rest) as [r|]; [|auto].
    destruct (stripPrefix "://" _) as [tail|]; [|auto].
    right. exists c, scheme, rest, tail. auto. }
  repeat split.
  - unfold repairUrl.
    rewrite (span_app isLower scheme (":http://" +:+ rest) H0 eq_refl).
    destruct scheme; [congruence|]. reflexivity.
  - unfold repairUrl.
    rewrite (span_app isLower scheme (":https://" +:+ rest) H0 eq_refl).
    destruct scheme; [congruence|]. reflexivity.
  - intros u. destruct (Hcases u) as [H | (c & sc & rest & tail & Hl & _ & ->)];
      [rewrite !H; reflexivity|].
    apply Hfix; [discriminate|exact Hl].
  - intros u. destruct (Hcases u) as [H | (c & sc & rest & tail & Hl & Hu & H)];
      [rewrite H; reflexivity|]. rewrite H, Hu.
    simpl in Hl. apply andb_true_iff in Hl as [Hc _].
    assert (Hrel : forall x, isProtocolRelative (String c x) = false).
    { intros x. unfold isProtocolRelative, startsWith.
      change (stripPrefix "//" (String c x))
        with (if Ascii.eqb "/" c then stripPrefix "/" x else None).
      destruct (Ascii.eqb_spec "/" c) as [<-|]; [discriminate Hc|reflexivity]. }
    change (String c sc +:+ "://" +:+ tail) with (String c (sc +:+ "://" +:+ tail)).
    change (String c sc +:+ rest) with (String c (sc +:+ rest)).
    rewrite !Hrel. reflexivity.
Qed.

(** ** Rounding and the range checks *)




















Section MoreProperties.
Context {globals : Globals}.
Variable self : VegaWrapper.

Implicit Types (vs : gmap string (string -> bool)) (h : option string).
Implicit Types (p url : string) (opt : Opt.t) (u : UrlParts.t).

(** X1. The domains of a protocol may be configured under its name with
    or without the trailing colon: looking up [k:] gives the entry of
    [k:] when there is one and the entry of [k] otherwise; a name that
    does not end in a colon is looked up as it is. *)
Theorem getProtocolDomains_colon k :
  _getProtocolDomains self (k +:+ ":")
    = match domains self !! (k +:+ ":") with
      | Some ds => Some ds
      | None => domains self !! k
      end /\
  (forall p c, c <> ":"%char ->
     _getProtocolDomains self (p +:+ str1 c) = domains self !! (p +:+ str1 c)) /\
  _getProtocolDomains self EmptyString = domains self !! EmptyString.
Proof.
  unfold _getProtocolDomains. rewrite removeColon_colon. repeat split.
  - intros p c Hc. rewrite (removeColon_other _ _ Hc).
    destruct (domains self !! (p +:+ str1 c)); reflexivity.
  - cbn. destruct (domains self !! EmptyString); reflexivity.
Qed.

(** ** The matcher cache *)

(** X2. [testHost] builds the matcher of a protocol at most once and
    touches no other entry of the cache: after a call, a second call for
    the same protocol leaves the cache as it is and answers with the
    cached matcher; the entries of the other protocols are those from
    before the call; and for a protocol that has no domains and no cached
    matcher the answer is [false] and nothing is cached. *)
Theorem testHost_caches_once p h vs :
  let vs1 := snd (testHost self p h vs) in
  (forall h', snd (testHost self p h' vs1) = vs1) /\
  (forall h' v, vs1 !! p = Some v -> fst (testHost self p h' vs1) = inr (v (toStr h'))) /\
  (forall q, q <> p -> vs1 !! q = vs !! q) /\
  (vs !! p = None -> _getProtocolDomains self p = None ->
   testHost self p h vs = (inr false, vs)).
Proof.
  intros vs1.
  assert (Hcases :
    (exists v, vs !! p = Some v /\ vs1 = vs) \/
    (exists ds, vs !! p = None /\ _getProtocolDomains self p = Some ds /\
                vs1 = <[p := makeValidator ds (isHttp p)]> vs) \/
    (vs !! p = None /\ _getProtocolDomains self p = None /\ vs1 = vs)).
  { subst vs1. unfold testHost.
    destruct (vs !! p) as [v|]; [left; eauto|].
    destruct (_getProtocolDomains self p) as [ds|]; [right; left; eauto|auto]. }
  clearbody vs1.
  assert (Hhit : forall h' v, vs1 !! p = Some v ->
            testHost self p h' vs1 = (inr (v (toStr h')), vs1)).
  { intros h' v Hv. unfold testHost. rewrite Hv. reflexivity. }
  destruct Hcases as [(v & Hv & ->) | [(ds & Hv & Hds & ->) | (Hv & Hds & ->)]].
  - repeat split.
    + intros h'. rewrite (Hhit h' v Hv). reflexivity.
    + intros h' w Hw. rewrite (Hhit h' w Hw). reflexivity.
    + congruence.
  - repeat split.
    + intros h'. erewrite Hhit by apply lookup_insert_eq. reflexivity.
    + intros h' w Hw. rewrite (Hhit h' w Hw). reflexivity.
    + intros q Hq. rewrite lookup_insert_ne by congruence. reflexivity.
    + congruence.
  - repeat split.
    + intros h'. unfold testHost. rewrite Hv, Hds. reflexivity.
    + intros h' w Hw. congruence.
    + intros _ _. unfold testHost. rewrite Hv, Hds. reflexivity.
Qed.

(** ** The cache never changes an answer *)

Lemma cacheFree_ret {A} (a : A) : cacheFree self (ret a).
Proof. exists (inr a). intros vs Hok. exists vs. auto. Qed.

Lemma cacheFree_throw {A} (e : exn) : cacheFree self (@throw A e).
Proof. exists (inl e). intros vs Hok. exists vs. auto. Qed.

Lemma cacheFree_lift {A} (r : exn + A) : cacheFree self (lift r).
Proof. exists r. intros vs Hok. exists vs. auto. Qed.

Lemma cacheFree_bind {A B} (m : M A) (k : A -> M B) :
  cacheFree self m -> (forall a, cacheFree self (k a)) -> cacheFree self (bind m k).
Proof.
  intros [[e|a] Hm] Hk.
  - exists (inl e). intros vs Hok. destruct (Hm vs Hok) as (vs1 & Hr & Hok1).
    exists vs1. unfold bind. rewrite Hr. auto.
  - destruct (Hk a) as [r Hr]. exists r. intros vs Hok.
    destruct (Hm vs Hok) as (vs1 & Hr1 & Hok1).
    destruct (Hr vs1 Hok1) as (vs2 & Hr2 & Hok2).
    exists vs2. unfold bind. rewrite Hr1. auto.
Qed.

Lemma cacheFree_validateExternalService u sh url o :
  cacheFree self (_validateExternalService self u sh url o).
Proof.
  exists (externalService self u sh url o). intros vs Hok.
  apply validateExternalService_spec, Hok.
Qed.

Lemma cacheFree_sanitizeHost h : cacheFree self (sanitizeHost self h).
Proof.
  exists (inr (resolveHost self h)). intros vs Hok. apply sanitizeHost_spec, Hok.
Qed.

Ltac cacheFree_step :=
  first
    [ apply cacheFree_ret
    | apply cacheFree_throw
    | apply cacheFree_lift
    | apply cacheFree_validateExternalService
    | apply cacheFree_sanitizeHost
    | apply cacheFree_bind; [|intros]
    | match goal with
      | |- cacheFree _ (if ?b then _ else _) => destruct b
      | |- cacheFree _ (match ?x with _ => _ end) => destruct x
      end ].

Lemma cacheFree_sanitizeUrl opt : cacheFree self (sanitizeUrl self opt).
Proof.
  unfold sanitizeUrl, sanitizeParts, openAction, wikititleCase, fetchAction.
  repeat cacheFree_step.
Qed.

Lemma sanitizeUrl_cacheOk opt vs :
  cacheOk self vs ->
  fst (sanitizeUrl self opt vs) = fst (sanitizeUrl self opt ∅) /\
  cacheOk self (snd (sanitizeUrl self opt vs)).
Proof.
  intros Hok. destruct (cacheFree_sanitizeUrl opt) as [r Hr].
  destruct (Hr vs Hok) as (vs1 & -> & Hok1).
  destruct (Hr ∅ (cacheOk_empty self)) as (vs2 & -> & _).
  auto.
Qed.

(** X3. The cache is an optimisation only.  From any cache that holds
    only matchers built by [testHost], [sanitizeUrl] returns what it
    returns from the empty cache of a fresh wrapper, and the cache it
    leaves behind again holds only such matchers. *)
Theorem sanitizeUrl_cache_independent opt vs :
  cacheOk self vs ->
  fst (sanitizeUrl self opt vs) = fst (sanitizeUrl self opt ∅) /\
  cacheOk self (snd (sanitizeUrl self opt vs)).
Proof. apply sanitizeUrl_cacheOk. Qed.

(** A sequence of requests: whatever requests were sanitised before (each
    starting from the cache the previous one left), the outcome of the
    next request is its outcome on a fresh wrapper. *)
Corollary sanitizeUrl_after_history (history : list Opt.t) opt :
  let vs := fold_left (fun vs o => snd (sanitizeUrl self o vs)) history ∅ in
  fst (sanitizeUrl self opt vs) = fst (sanitizeUrl self opt ∅).
Proof.
  cbn zeta. apply sanitizeUrl_cacheOk.
  assert (H : forall vs0, cacheOk self vs0 ->
            cacheOk self (fold_left (fun vs o => snd (sanitizeUrl self o vs)) history vs0)).
  { induction history as [|o l IH]; intros vs0 H0; cbn; [exact H0|].
    apply IH. apply sanitizeUrl_cacheOk. exact H0. }
  apply H, cacheOk_empty.
Qed.

(** ** The two actions, protocol by protocol *)

Lemma fetch_run opt vs sh :
  cacheOk self vs ->
  Opt.type opt <> Some "open" ->
  resolveHost self (UrlParts.host (parsed self opt)) = Some sh ->
  exists vs1, cacheOk self vs1 /\
    sanitizeParts self opt vs
      = fetchAction self (adopted self opt sh) (tagged self opt sh) sh vs1.
Proof.
  intros Hok Hty Hr.
  destruct (sanitizeParts_resolved self opt vs sh Hok Hr) as (vs1 & Hok1 & ->).
  rewrite bool_decide_eq_false_2 by exact Hty. eauto.
Qed.

Lemma open_run opt vs sh :
  cacheOk self vs ->
  Opt.type opt = Some "open" ->
  resolveHost self (UrlParts.host (parsed self opt)) = Some sh ->
  exists vs1, cacheOk self vs1 /\
    sanitizeParts self opt vs
      = openAction (adopted self opt sh) (tagged self opt sh) sh
          (relativeProtocol self opt) vs1.
Proof.
  intros Hok Hty Hr.
  destruct (sanitizeParts_resolved self opt vs sh Hok Hr) as (vs1 & Hok1 & ->).
  rewrite bool_decide_eq_true_2 by exact Hty. eauto.
Qed.

Lemma not_in_eqb p l : ~ In p l -> forallb (fun q => negb (String.eqb p q)) l = true.
Proof.
  induction l as [|q l IH]; intros Hn; [reflexivity|]. cbn [forallb].
  apply andb_true_iff. split.
  - apply negb_true_iff, String.eqb_neq. intros ->. apply Hn. left. reflexivity.
  - apply IH. intros Hi. apply Hn. right. exact Hi.
Qed.

(** X5. Data loading knows thirteen protocols and nothing else: a
    request on an allowlisted host whose protocol is none of them, the
    [wikititle:] of the open action included, fails with the
    unknown-protocol error, whether the wrapper is trusted or not. *)
Theorem fetch_unknown_protocol opt vs sh :
  cacheOk self vs ->
  Opt.type opt <> Some "open" ->
  resolveHost self (UrlParts.host (parsed self opt)) = Some sh ->
  ~ In (toStr (UrlParts.protocol (adopted self opt sh))) fetchProtocols ->
  fst (sanitizeUrl self opt vs) = inl (unknownProtocolError (Opt.url (repaired opt))).
Proof.
  intros Hok Hty Hr Hn. rewrite sanitizeUrl_of_parts.
  destruct (fetch_run opt vs sh Hok Hty Hr) as (vs1 & _ & ->).
  apply not_in_eqb in Hn. cbn [forallb fetchProtocols] in Hn.
  repeat (apply andb_true_iff in Hn as [?%negb_true_iff Hn]).
  unfold fetchAction.
  repeat match goal with H : String.eqb _ _ = false |- _ => rewrite H; clear H end.
  reflexivity.
Qed.

(** X6. The open action only ever links to a wiki page.  Whenever it
    succeeds on a host resolved to [sh], the declared protocol was
    [http:], [https:] or [wikititle:], and the parts handed to the
    formatter have the pathname [/wiki/] followed by one percent-encoded
    component, an empty query, the host and the scheme of [sh]; the tag
    recorded on [opt] is [wikititle:] or [wikititle].  Any other declared
    protocol fails. *)
Theorem open_links_to_wiki_page opt vs sh :
  cacheOk self vs ->
  Opt.type opt = Some "open" ->
  resolveHost self (UrlParts.host (parsed self opt)) = Some sh ->
  (forall parts o, fst (sanitizeParts self opt vs) = inr (parts, o) ->
     In (toStr (UrlParts.protocol (adopted self opt sh))) openProtocols /\
     (exists title, UrlParts.pathname parts = "/wiki/" +:+ encodeURIComponent title) /\
     UrlParts.query parts = Some [] /\
     UrlParts.host parts = SanitizedHost.host sh /\
     UrlParts.protocol parts = Some (SanitizedHost.protocol sh) /\
     (Opt.graphProtocol o = Some "wikititle:" \/ Opt.graphProtocol o = Some "wikititle")) /\
  (~ In (toStr (UrlParts.protocol (adopted self opt sh))) openProtocols ->
   decodeURIComponent (UrlParts.pathname (parsed self opt)) <> None ->
   fst (sanitizeUrl self opt vs) = inl openProtocolError).
Proof.
  intros Hok Hty Hr.
  destruct (open_run opt vs sh Hok Hty Hr) as (vs1 & _ & Hrun).
  destruct (adopted_fields self opt sh) as (Hpath & Hquery & Hhost & _).
  assert (Hcase : forall o d parts o' vs',
            wikititleCase (adopted self opt sh) o sh d vs1 = (inr (parts, o'), vs') ->
            (exists title, UrlParts.pathname parts = "/wiki/" +:+ encodeURIComponent title) /\
            UrlParts.query parts = Some [] /\
            UrlParts.host parts = SanitizedHost.host sh /\
            UrlParts.protocol parts = Some (SanitizedHost.protocol sh) /\ o' = o).
  { intros o d parts o' vs'. unfold wikititleCase, throw, ret.
    destruct (UrlParts.query (adopted self opt sh)) as [[|kv q]|] eqn:Hq;
      [|discriminate|discriminate].
    cbn [length Nat.eqb negb]. destruct (negb _); [discriminate|].
    intros [= <- <- _]. cbn. rewrite Hq, Hhost. eauto 6. }
  split.
  - intros parts o. rewrite Hrun. unfold openAction.
    destruct (decodeURIComponent _) as [d|]; [|discriminate].
    set (p := toStr _).
    destruct (String.eqb_spec p "http:") as [Ep|Np];
      [|destruct (String.eqb_spec p "https:") as [Ep|Np']]; cbn [orb].
    1,2: destruct (negb (relativeProtocol self opt));
         [destruct (negb _); [discriminate|]|];
         (destruct (wikititleCase _ _ _ _ vs1) as [[e|[parts' o']] vs'] eqn:Hw;
          [discriminate|]; intros [= -> ->];
          apply Hcase in Hw as (Ht & Hq & Hh & Hp & ->);
          rewrite Ep; cbn; auto 10).
    destruct (String.eqb_spec p "wikititle:") as [Ep|Np'']; [|discriminate].
    destruct (wikititleCase _ _ _ _ vs1) as [[e|[parts' o']] vs'] eqn:Hw;
      [discriminate|]. intros [= -> ->].
    apply Hcase in Hw as (Ht & Hq & Hh & Hp & ->).
    rewrite Ep. cbn. repeat split; auto.
    left. unfold tagged. cbn. fold p.
    destruct (UrlParts.protocol (adopted self opt sh)) as [x|] eqn:Hx;
      [cbn in p; subst p; congruence|discriminate Ep].
  - intros Hn Hd. rewrite sanitizeUrl_of_parts, Hrun. unfold openAction.
    rewrite Hpath. destruct (decodeURIComponent _) as [d|]; [|congruence].
    apply not_in_eqb in Hn. cbn [forallb openProtocols] in Hn.
    repeat (apply andb_true_iff in Hn as [?%negb_true_iff Hn]).
    repeat match goal with H : String.eqb _ _ = false |- _ => rewrite H; clear H end.
    reflexivity.
Qed.

(** X7. [wikiapi:] on an allowlisted host ignores the path and hands the
    query, defined or not, to [objExtender] together with [format=json],
    [formatversion=2].  When [objExtender] throws, as [datalib.extend]
    does on an undefined query, [sanitizeUrl] throws the same exception
    and no URL is produced.  When it returns, the request is sent to
    [/w/api.php] with the returned query, the host and the scheme of the
    resolved host, and [opt] asks for the CORS origin and records the
    [wikiapi:] tag. *)
Theorem wikiapi_translation opt vs sh :
  cacheOk self vs ->
  Opt.type opt <> Some "open" ->
  resolveHost self (UrlParts.host (parsed self opt)) = Some sh ->
  UrlParts.protocol (adopted self opt sh) = Some "wikiapi:" ->
  (forall e,
     objExtender self (UrlParts.query (parsed self opt))
       [("format", "json"); ("formatversion", "2")] = inl e ->
     fst (sanitizeParts self opt vs) = inl e /\
     fst (sanitizeUrl self opt vs) = inl e) /\
  (forall extended,
     objExtender self (UrlParts.query (parsed self opt))
       [("format", "json"); ("formatversion", "2")] = inr extended ->
     exists parts o,
       fst (sanitizeParts self opt vs) = inr (parts, o) /\
       fst (sanitizeUrl self opt vs) = inr (formatUrl self parts o, o) /\
       UrlParts.pathname parts = "/w/api.php" /\
       UrlParts.query parts = extended /\
       UrlParts.host parts = SanitizedHost.host sh /\
       UrlParts.protocol parts = Some (SanitizedHost.protocol sh) /\
       Opt.addCorsOrigin o = true /\
       Opt.graphProtocol o = Some "wikiapi:" /\
       Opt.url o = repairUrl (Opt.url opt)).
Proof.
  intros Hok Hty Hr Hp. rewrite sanitizeUrl_of_parts.
  destruct (fetch_run opt vs sh Hok Hty Hr) as (vs1 & _ & ->).
  destruct (adopted_fields self opt sh) as (Hpath & Hquery & Hhost & _).
  unfold fetchAction. rewrite Hp, Hquery. cbn -[bind lift]. unfold bind, lift. split.
  - intros e ->. cbn. auto.
  - intros extended ->. cbn.
    do 2 eexists. split; [reflexivity|]. split; [reflexivity|].
    cbn. rewrite Hhost, Hp. auto 10.
Qed.

(** X8. [wikiraw:] turns the decoded path into the [titles] parameter of
    a fixed revisions query and drops the query of the request: a path
    [/title] with a non-empty title free of pipes gives exactly the six
    parameters below on [/w/api.php]; a decoded path with a pipe is
    refused; a path that cannot be decoded raises [URIError]. *)
Theorem wikiraw_translation opt vs sh :
  cacheOk self vs ->
  Opt.type opt <> Some "open" ->
  resolveHost self (UrlParts.host (parsed self opt)) = Some sh ->
  UrlParts.protocol (adopted self opt sh) = Some "wikiraw:" ->
  (forall c title,
     decodeURIComponent (UrlParts.pathname (parsed self opt))
       = Some (String "/" (String c title)) ->
     hasPipe (String c title) = false ->
     exists parts o,
       fst (sanitizeParts self opt vs) = inr (parts, o) /\
       UrlParts.pathname parts = "/w/api.php" /\
       UrlParts.query parts
         = Some [("format", "json"); ("formatversion", "2"); ("action", "query");
                 ("prop", "revisions"); ("rvprop", "content");
                 ("titles", String c title)] /\
       UrlParts.host parts = SanitizedHost.host sh /\
       UrlParts.protocol parts = Some (SanitizedHost.protocol sh) /\
       Opt.addCorsOrigin o = true /\
       Opt.graphProtocol o = Some "wikiraw:") /\
  (forall d, decodeURIComponent (UrlParts.pathname (parsed self opt)) = Some d ->
     hasPipe d = true ->
     fst (sanitizeUrl self opt vs) = inl (Error "wikiraw: invalid title")) /\
  (decodeURIComponent (UrlParts.pathname (parsed self opt)) = None ->
   fst (sanitizeUrl self opt vs) = inl URIError).
Proof.
  intros Hok Hty Hr Hp. rewrite sanitizeUrl_of_parts.
  destruct (fetch_run opt vs sh Hok Hty Hr) as (vs1 & _ & ->).
  destruct (adopted_fields self opt sh) as (Hpath & Hquery & Hhost & _).
  unfold fetchAction. rewrite Hp, Hpath. cbn -[isTitlePath]. repeat split.
  - intros c title Hd Hpipe. rewrite Hd, (title_isTitlePath _ _ Hpipe). cbn.
    do 2 eexists. split; [reflexivity|]. cbn. rewrite Hhost, Hp. auto 10.
  - intros d Hd Hpipe. rewrite Hd, (hasPipe_not_title _ Hpipe). reflexivity.
  - intros ->. reflexivity.
Qed.

(** X9. [wikirest:] keeps the path and the query of the request and
    only resolves the scheme, provided the path starts with [/api/];
    any other path is refused. *)
Theorem wikirest_translation opt vs sh :
  cacheOk self vs ->
  Opt.type opt <> Some "open" ->
  resolveHost self (UrlParts.host (parsed self opt)) = Some sh ->
  UrlParts.protocol (adopted self opt sh) = Some "wikirest:" ->
  (forall rest, UrlParts.pathname (parsed self opt) = "/api/" +:+ rest ->
     exists parts o,
       fst (sanitizeParts self opt vs) = inr (parts, o) /\
       UrlParts.pathname parts = UrlParts.pathname (parsed self opt) /\
       UrlParts.query parts = UrlParts.query (parsed self opt) /\
       UrlParts.host parts = SanitizedHost.host sh /\
       UrlParts.protocol parts = Some (SanitizedHost.protocol sh) /\
       Opt.addCorsOrigin o = Opt.addCorsOrigin opt) /\
  (isApiPath (UrlParts.pathname (parsed self opt)) = false ->
   fst (sanitizeUrl self opt vs)
     = inl (Error "wikirest: protocol must begin with the /api/ prefix")).
Proof.
  intros Hok Hty Hr Hp. rewrite sanitizeUrl_of_parts.
  destruct (fetch_run opt vs sh Hok Hty Hr) as (vs1 & _ & ->).
  destruct (adopted_fields self opt sh) as (Hpath & Hquery & Hhost & _).
  unfold fetchAction. rewrite Hp, Hpath. cbn -[isApiPath]. split.
  - intros rest Hrest.
    assert (Hapi : isApiPath (UrlParts.pathname (parsed self opt)) = true)
      by (rewrite Hrest; unfold isApiPath, startsWith;
          rewrite stripPrefix_app; reflexivity).
    rewrite Hapi. cbn. do 2 eexists. split; [reflexivity|].
    cbn. rewrite Hpath, Hquery, Hhost. auto 10.
  - intros ->. reflexivity.
Qed.

(** X10. [wikifile:] never fails on an allowlisted host: the path of the
    request, whatever it is, is appended to
    [/wiki/Special:Redirect/file], and the query is kept. *)
Theorem wikifile_translation opt vs sh :
  cacheOk self vs ->
  Opt.type opt <> Some "open" ->
  resolveHost self (UrlParts.host (parsed self opt)) = Some sh ->
  UrlParts.protocol (adopted self opt sh) = Some "wikifile:" ->
  exists parts o,
    fst (sanitizeParts self opt vs) = inr (parts, o) /\
    UrlParts.pathname parts
      = "/wiki/Special:Redirect/file" +:+ UrlParts.pathname (parsed self opt) /\
    UrlParts.query parts = UrlParts.query (parsed self opt) /\
    UrlParts.host parts = SanitizedHost.host sh /\
    UrlParts.protocol parts = Some (SanitizedHost.protocol sh) /\
    Opt.addCorsOrigin o = Opt.addCorsOrigin opt.
Proof.
  intros Hok Hty Hr Hp.
  destruct (fetch_run opt vs sh Hok Hty Hr) as (vs1 & _ & ->).
  destruct (adopted_fields self opt sh) as (Hpath & Hquery & Hhost & _).
  unfold fetchAction. rewrite Hp. cbn.
  do 2 eexists. split; [reflexivity|]. cbn. rewrite Hpath, Hquery, Hhost. auto 10.
Qed.


(** ** External services *)

(** X12. The outcome of [_validateExternalService], for the protocol [p]
    it checks (the override, or the protocol of the parts).  Without
    domains for [p] it throws the protocol-disabled error.  When it
    succeeds, the host of the result is accepted by the allowlist of [p]
    itself, the pathname and the query are untouched, a relative host has
    been replaced by the first configured domain with the scheme
    [sanitizeHost] resolves for it, and an explicit host is kept with the
    scheme resolved before.  A relative request whose first configured
    domain is in neither the [https:] nor the [http:] allowlist throws
    [TypeError]. *)
Theorem validateExternalService_outcome u sh url o vs :
  cacheOk self vs ->
  let p := toStr (if truthy o then o else UrlParts.protocol u) in
  (_getProtocolDomains self p = None ->
   fst (_validateExternalService self u sh url o vs) = inl (disabledError p url)) /\
  (forall ds, _getProtocolDomains self p = Some ds ->
     (forall u', fst (_validateExternalService self u sh url o vs) = inr u' ->
        allowed self p (UrlParts.host u') = true /\
        UrlParts.pathname u' = UrlParts.pathname u /\
        UrlParts.query u' = UrlParts.query u /\
        (UrlParts.isRelativeHost u = true ->
           UrlParts.host u' = head ds /\
           exists r, resolveHost self (head ds) = Some r /\
                     UrlParts.protocol u' = Some (SanitizedHost.protocol r)) /\
        (UrlParts.isRelativeHost u = false ->
           UrlParts.host u' = UrlParts.host u /\
           UrlParts.protocol u' = Some (SanitizedHost.protocol sh))) /\
     (UrlParts.isRelativeHost u = true -> resolveHost self (head ds) = None ->
        fst (_validateExternalService self u sh url o vs) = inl TypeError) /\
     (UrlParts.isRelativeHost u = false -> allowed self p (UrlParts.host u) = false ->
        fst (_validateExternalService self u sh url o vs)
          = inl (hostNotAllowedError p url))).
Proof.
  intros Hok p.
  destruct (validateExternalService_spec self u sh url o vs Hok) as (vs' & -> & _).
  cbn [fst]. unfold externalService. fold p. split.
  - intros ->. reflexivity.
  - intros ds ->.
    destruct (UrlParts.isRelativeHost u);
      [destruct (resolveHost self (head ds)) as [r|] eqn:Hr|];
      cbn [UrlParts.host UrlParts.set_host UrlParts.set_protocol];
      try (match goal with |- context [allowed self ?q ?x] =>
             destruct (allowed self q x) eqn:Ha end);
      repeat split; intros; simplify_eq; cbn; eauto.
Qed.

Lemma external_run {A} u sh url o (k : UrlParts.t -> M (A)) vs :
  cacheOk self vs ->
  exists vs1,
    bind (_validateExternalService self u sh url o) k vs
      = match externalService self u sh url o with
        | inl e => (inl e, vs1)
        | inr u' => k u' vs1
        end.
Proof.
  intros Hok. unfold bind.
  destruct (validateExternalService_spec self u sh url o vs Hok) as (vs1 & -> & _).
  exists vs1. destruct (externalService self u sh url o); reflexivity.
Qed.

Lemma externalService_set u sh url o x y :
  externalService self (UrlParts.set_pathname x (UrlParts.set_query y u)) sh url o
    = match externalService self u sh url o with
      | inl e => inl e
      | inr u' => inr (UrlParts.set_pathname x (UrlParts.set_query y u'))
      end.
Proof.
  unfold externalService. cbn [UrlParts.protocol UrlParts.set_pathname UrlParts.set_query
    UrlParts.isRelativeHost].
  destruct (_getProtocolDomains self _); [|reflexivity].
  destruct (UrlParts.isRelativeHost u).
  - destruct (resolveHost self (head l)); [|reflexivity]. cbn.
    destruct (allowed self _ _); reflexivity.
  - cbn. destruct (allowed self _ _); reflexivity.
Qed.

(** X13. [geoshape:], [geoline:] and [mapsnapshot:] share one
    configuration: without domains for [geoshape:] (or [geoshape]) all
    three fail with the protocol-disabled error of [geoshape:], whatever
    else the request holds. *)
Theorem geoshape_family_disabled opt vs sh :
  cacheOk self vs ->
  Opt.type opt <> Some "open" ->
  resolveHost self (UrlParts.host (parsed self opt)) = Some sh ->
  In (toStr (UrlParts.protocol (adopted self opt sh)))
     ["geoshape:"; "geoline:"; "mapsnapshot:"] ->
  _getProtocolDomains self "geoshape:" = None ->
  fst (sanitizeUrl self opt vs)
    = inl (disabledError "geoshape:" (Opt.url (repaired opt))).
Proof.
  intros Hok Hty Hr Hp Hdis. rewrite sanitizeUrl_of_parts.
  destruct (fetch_run opt vs sh Hok Hty Hr) as (vs1 & Hok1 & ->).
  unfold fetchAction.
  assert (Hext : forall u, externalService self u sh (Opt.url (tagged self opt sh))
                   (Some "geoshape:")
                 = inl (disabledError "geoshape:" (Opt.url (repaired opt)))).
  { intros u. unfold externalService. cbn -[_getProtocolDomains].
    rewrite Hdis. reflexivity. }
  cbn [In] in Hp. destruct Hp as [<- | [<- | [<- | []]]];
    cbn -[_validateExternalService mapsnapshotCase bind];
    match goal with |- context [bind (_validateExternalService self ?a ?b ?c ?d) ?k vs1] =>
      destruct (external_run a b c d k vs1 Hok1) as (vs2 & ->) end;
    rewrite Hext; reflexivity.
Qed.

(** X14. [geoshape:] and [geoline:] on an accepted map host: with a
    non-empty [ids] or [query] parameter the pathname becomes the name of
    the protocol without its colon ([/geoshape], [/geoline]) and the
    query is passed on unchanged, extra parameters included; without
    either parameter the request is refused with an error naming the
    protocol. *)
Theorem geoshape_translation opt vs sh u' :
  cacheOk self vs ->
  Opt.type opt <> Some "open" ->
  resolveHost self (UrlParts.host (parsed self opt)) = Some sh ->
  externalService self (adopted self opt sh) sh (Opt.url (repaired opt))
    (Some "geoshape:") = inr u' ->
  forall name, name = "geoshape" \/ name = "geoline" ->
  UrlParts.protocol (adopted self opt sh) = Some (name +:+ ":") ->
  (forall q, UrlParts.query (parsed self opt) = Some q ->
     truthy (getProp q "ids") = true \/ truthy (getProp q "query") = true ->
     exists parts o,
       fst (sanitizeParts self opt vs) = inr (parts, o) /\
       UrlParts.pathname parts = "/" +:+ name /\
       UrlParts.query parts = Some q /\
       UrlParts.host parts = UrlParts.host u' /\
       UrlParts.protocol parts = UrlParts.protocol u' /\
       Opt.addCorsOrigin o = Opt.addCorsOrigin opt) /\
  ((forall q, UrlParts.query (parsed self opt) = Some q ->
      truthy (getProp q "ids") = false /\ truthy (getProp q "query") = false) ->
   fst (sanitizeUrl self opt vs)
     = inl (Error (name +:+ ":" +:+ " missing ids or query parameter in: "
                   +:+ Opt.url (repaired opt)))).
Proof.
  intros Hok Hty Hr Hext name Hname Hp. rewrite sanitizeUrl_of_parts.
  destruct (fetch_run opt vs sh Hok Hty Hr) as (vs1 & Hok1 & ->).
  destruct (adopted_fields self opt sh) as (Hpath & Hquery & _).
  destruct (externalService_inv self _ _ _ _ _ Hext) as (_ & Hq' & _).
  rewrite Hquery in Hq'.
  unfold fetchAction. rewrite Hp.
  destruct Hname as [-> | ->];
    [change ("geoshape" +:+ ":") with "geoshape:" in *
    |change ("geoline" +:+ ":") with "geoline:" in *];
    cbn -[_validateExternalService bind];
    match goal with |- context [bind (_validateExternalService self ?a ?b ?c ?d) ?k vs1] =>
      destruct (external_run a b c d k vs1 Hok1) as (vs2 & ->);
      change c with (Opt.url (repaired opt))
    end;
    rewrite Hext, Hq'; unfold tagged; rewrite Hp; cbn [Opt.graphProtocol
      Opt.set_graphProtocol].
  all: split.
  1,3: intros q Hq Hids; rewrite Hq;
       assert (Ht : truthy (getProp q "ids") || truthy (getProp q "query") = true)
         by (destruct Hids as [-> | ->]; [reflexivity|apply orb_true_r]);
       rewrite Ht; do 2 eexists; (split; [reflexivity|]); cbn; rewrite Hq', Hq;
       repeat split; reflexivity.
  all: intros Hnone; destruct (UrlParts.query (parsed self opt)) as [q|];
       [destruct (Hnone q eq_refl) as [-> ->]|]; reflexivity.
Qed.

(** X15. [wikidatasparql:] on an accepted query-service host keeps
    nothing of the request but the [query] parameter: the pathname is the
    SPARQL endpoint, the query is that single parameter, and the headers
    are what [objExtender] makes of the given ones (or of none) and the
    SPARQL [Accept] header; should [objExtender] throw, its exception
    leaves [sanitizeUrl].  Without a non-empty [query] parameter the
    request is refused. *)
Theorem wikidatasparql_translation opt vs sh u' :
  cacheOk self vs ->
  Opt.type opt <> Some "open" ->
  resolveHost self (UrlParts.host (parsed self opt)) = Some sh ->
  UrlParts.protocol (adopted self opt sh) = Some "wikidatasparql:" ->
  externalService self (adopted self opt sh) sh (Opt.url (repaired opt)) None
    = inr u' ->
  (forall q v, UrlParts.query (parsed self opt) = Some q ->
     getProp q "query" = Some v -> v <> EmptyString ->
     match objExtender self (Some (default [] (Opt.headers opt)))
             [("Accept", "application/sparql-results+json")] with
     | inr headers =>
         exists parts o,
           fst (sanitizeParts self opt vs) = inr (parts, o) /\
           UrlParts.pathname parts = "/bigdata/namespace/wdq/sparql" /\
           UrlParts.query parts = Some [("query", v)] /\
           UrlParts.host parts = UrlParts.host u' /\
           UrlParts.protocol parts = UrlParts.protocol u' /\
           Opt.headers o = headers
     | inl e => fst (sanitizeUrl self opt vs) = inl e
     end) /\
  ((forall q, UrlParts.query (parsed self opt) = Some q ->
      truthy (getProp q "query") = false) ->
   fst (sanitizeUrl self opt vs)
     = inl (Error ("wikidatasparql: missing query parameter in: "
                   +:+ Opt.url (repaired opt)))).
Proof.
  intros Hok Hty Hr Hp Hext. rewrite sanitizeUrl_of_parts.
  destruct (fetch_run opt vs sh Hok Hty Hr) as (vs1 & Hok1 & ->).
  destruct (adopted_fields self opt sh) as (_ & Hquery & _).
  destruct (externalService_inv self _ _ _ _ _ Hext) as (_ & Hq' & _).
  rewrite Hquery in Hq'.
  unfold fetchAction. rewrite Hp. cbn -[_validateExternalService bind lift].
  match goal with |- context [bind (_validateExternalService self ?a ?b ?c ?d) ?k vs1] =>
    destruct (external_run a b c d k vs1 Hok1) as (vs2 & ->);
    change c with (Opt.url (repaired opt))
  end.
  rewrite Hext, Hq'. split.
  - intros q v Hq Hv Hne. rewrite Hq, Hv.
    assert (Ht : truthy (Some v) = true) by (destruct v; [congruence|reflexivity]).
    rewrite Ht. unfold bind, lift. unfold tagged. cbn [Opt.headers Opt.set_graphProtocol
      repaired Opt.set_url].
    destruct (objExtender self _ _) as [e|headers]; [reflexivity|].
    do 2 eexists. split; [reflexivity|]. cbn. repeat split; reflexivity.
  - intros Hnone. destruct (UrlParts.query (parsed self opt)) as [q|];
      [rewrite (Hnone q eq_refl)|]; reflexivity.
Qed.

(** X16. [wikirawupload:] is checked against its own allowlist, and on
    an accepted upload host keeps the path of the request and clears the
    query, whatever parameters were given. *)
Theorem wikirawupload_translation opt vs sh :
  cacheOk self vs ->
  Opt.type opt <> Some "open" ->
  resolveHost self (UrlParts.host (parsed self opt)) = Some sh ->
  UrlParts.protocol (adopted self opt sh) = Some "wikirawupload:" ->
  (forall u', externalService self (adopted self opt sh) sh (Opt.url (repaired opt)) None
              = inr u' ->
     allowed self "wikirawupload:" (UrlParts.host u') = true /\
     exists parts o,
       fst (sanitizeParts self opt vs) = inr (parts, o) /\
       UrlParts.pathname parts = UrlParts.pathname (parsed self opt) /\
       UrlParts.query parts = Some [] /\
       UrlParts.host parts = UrlParts.host u' /\
       UrlParts.protocol parts = UrlParts.protocol u') /\
  (_getProtocolDomains self "wikirawupload:" = None ->
   fst (sanitizeUrl self opt vs)
     = inl (disabledError "wikirawupload:" (Opt.url (repaired opt)))).
Proof.
  intros Hok Hty Hr Hp. rewrite sanitizeUrl_of_parts.
  destruct (fetch_run opt vs sh Hok Hty Hr) as (vs1 & Hok1 & ->).
  destruct (adopted_fields self opt sh) as (Hpath & _).
  unfold fetchAction. rewrite Hp. cbn -[_validateExternalService bind].
  match goal with |- context [bind (_validateExternalService self ?a ?b ?c ?d) ?k vs1] =>
    destruct (external_run a b c d k vs1 Hok1) as (vs2 & ->);
    change c with (Opt.url (repaired opt))
  end.
  split.
  - intros u' Hext. rewrite Hext.
    destruct (externalService_inv self _ _ _ _ _ Hext) as (Hp' & _).
    split.
    + revert Hext. unfold externalService. rewrite Hp. cbn -[_getProtocolDomains allowed].
      destruct (_getProtocolDomains self "wikirawupload:") as [ds|]; [|discriminate].
      destruct (UrlParts.isRelativeHost _);
        [destruct (resolveHost self (head ds)); [|discriminate]|];
        cbn -[allowed];
        match goal with |- context [allowed self ?q ?x] =>
          destruct (allowed self q x) eqn:Ha end;
        intros [= <-]; exact Ha.
    + do 2 eexists. split; [reflexivity|]. cbn. rewrite Hp', Hpath.
      repeat split; reflexivity.
  - intros Hdis. unfold externalService. rewrite Hp. cbn -[_getProtocolDomains].
    rewrite Hdis. reflexivity.
Qed.

(** X17. [tabular:] and [tabularinfo:] check the title before the
    service: for a decoded path [/title] with a non-empty title free of
    pipes, and a host the [tabular:] service accepts, the result is the
    [jsondata] query for that title on [/w/api.php] with the CORS origin
    asked for.  Both protocols are validated against the [tabular:]
    configuration. *)
Theorem tabular_translation opt vs sh u' :
  cacheOk self vs ->
  Opt.type opt <> Some "open" ->
  resolveHost self (UrlParts.host (parsed self opt)) = Some sh ->
  UrlParts.protocol (adopted self opt sh) = Some "tabular:" \/
    UrlParts.protocol (adopted self opt sh) = Some "tabularinfo:" ->
  externalService self (adopted self opt sh) sh (Opt.url (repaired opt))
    (Some "tabular:") = inr u' ->
  forall c title,
    decodeURIComponent (UrlParts.pathname (parsed self opt))
      = Some (String "/" (String c title)) ->
    hasPipe (String c title) = false ->
    exists parts o,
      fst (sanitizeParts self opt vs) = inr (parts, o) /\
      UrlParts.pathname parts = "/w/api.php" /\
      UrlParts.query parts
        = Some [("format", "json"); ("formatversion", "2"); ("action", "jsondata");
                ("title", String c title)] /\
      UrlParts.host parts = UrlParts.host u' /\
      UrlParts.protocol parts = UrlParts.protocol u' /\
      allowed self "tabular:" (UrlParts.host parts) = true /\
      Opt.addCorsOrigin o = true /\
      Opt.graphProtocol o = UrlParts.protocol (adopted self opt sh).
Proof.
  intros Hok Hty Hr Hp Hext c title Hd Hpipe.
  destruct (fetch_run opt vs sh Hok Hty Hr) as (vs1 & Hok1 & ->).
  destruct (adopted_fields self opt sh) as (Hpath & _).
  assert (Hall : allowed self "tabular:" (UrlParts.host u') = true).
  { revert Hext. unfold externalService. cbn -[_getProtocolDomains allowed].
    destruct (_getProtocolDomains self "tabular:") as [ds|]; [|discriminate].
    destruct (UrlParts.isRelativeHost _);
      [destruct (resolveHost self (head ds)); [|discriminate]|];
      cbn -[allowed];
      match goal with |- context [allowed self ?q ?x] =>
        destruct (allowed self q x) eqn:Ha end;
      intros [= <-]; exact Ha. }
  unfold fetchAction. rewrite Hpath, Hd.
  destruct Hp as [Hp | Hp]; rewrite Hp; cbn -[_validateExternalService bind isTitlePath];
    rewrite (title_isTitlePath _ _ Hpipe); cbn -[_validateExternalService bind];
    match goal with |- context [bind (_validateExternalService self ?a ?b ?c ?d) ?k vs1] =>
      destruct (external_run a b c d k vs1 Hok1) as (vs2 & ->);
      change c with (Opt.url (repaired opt))
    end;
    rewrite externalService_set, Hext;
    do 2 eexists; (split; [reflexivity|]); cbn; rewrite ?Hp;
    repeat split; try reflexivity; exact Hall.
Qed.

(** ** What a data request leaves on [opt] *)

Ltac advance H :=
  match type of H with
  | (if ?b then _ else _) _ = _ => destruct b eqn:?
  | match ?x with Some _ => _ | None => _ end _ = _ => destruct x eqn:?
  | throw _ _ = _ => discriminate H
  | lift _ _ = _ => unfold lift in H
  | bind (lift ?r) _ _ = _ =>
      unfold bind, lift in H; destruct r eqn:?; cbv beta iota in H; [discriminate H|]
  | ret _ _ = (inr _, _) => unfold ret in H; injection H as <- <- <-
  | (fun _ => _) _ = _ => cbv beta in H
  | context [lift ?r _] =>
      unfold lift in H; destruct r eqn:?; cbv beta iota in H; [discriminate H|]
  end.

(** X18. After any successful data request, [opt] carries the repaired
    URL, the declared protocol as [graphProtocol] (the tag the response
    is later normalised under) and its type unchanged; the CORS origin is
    asked for exactly by [wikiapi:], [wikiraw:], [tabular:] and
    [tabularinfo:], and never by the requests to external services; the
    headers are touched by [wikidatasparql:] only. *)
Theorem fetch_leaves_on_opt opt vs sh parts o :
  cacheOk self vs ->
  Opt.type opt <> Some "open" ->
  resolveHost self (UrlParts.host (parsed self opt)) = Some sh ->
  fst (sanitizeParts self opt vs) = inr (parts, o) ->
  let p := toStr (UrlParts.protocol (adopted self opt sh)) in
  In p fetchProtocols /\
  Opt.url o = repairUrl (Opt.url opt) /\
  Opt.type o = Opt.type opt /\
  Opt.graphProtocol o = UrlParts.protocol (adopted self opt sh) /\
  Opt.addCorsOrigin o
    = Opt.addCorsOrigin opt || existsb (String.eqb p) corsProtocols /\
  (p <> "wikidatasparql:" -> Opt.headers o = Opt.headers opt).
Proof.
  intros Hok Hty Hr Hrun p.
  destruct (fetch_run opt vs sh Hok Hty Hr) as (vs1 & Hok1 & Hs).
  rewrite Hs in Hrun. clear Hs.
  destruct (fetchAction self _ _ sh vs1) as [[e|[parts' o']] vs2] eqn:Hf;
    [discriminate|]. cbn in Hrun. injection Hrun as -> ->.
  unfold fetchAction in Hf. fold p in Hf.
  repeat advance Hf;
    try (unfold bind in Hf;
         match type of Hf with
         | context [_validateExternalService self ?a ?b ?c ?d vs1] =>
             destruct (validateExternalService_spec self a b c d vs1 Hok1)
               as (vs3 & Hv & _);
             rewrite Hv in Hf; clear Hv;
             destruct (externalService self a b c d) as [e|u'']; [discriminate|]
         end;
         repeat advance Hf);
    try (unfold mapsnapshotCase in Hf;
         repeat match type of Hf with
                | (match ?x with _ => _ end, _) = _ => destruct x; try discriminate
                end;
         injection Hf as <- <- <-);
    repeat match goal with
           | H : (_ || _) = true |- _ => apply orb_true_iff in H as [H | H]
           | H : String.eqb p _ = true |- _ => apply String.eqb_eq in H; rewrite H in *
           end;
    cbn; rewrite ?orb_true_r, ?orb_false_r;
    repeat split; auto 15; try congruence.
Qed.

Lemma sanitizeParts_validated opt vs parts o :
  cacheOk self vs ->
  isTrusted self = false ->
  fst (sanitizeParts self opt vs) = inr (parts, o) ->
  validated self parts.
Proof.
  intros Hok Hunt Hrun.
  destruct (resolveHost self (UrlParts.host (parsed self opt))) as [sh|] eqn:Hr.
  - destruct (sanitizeParts_resolved self opt vs sh Hok Hr) as (vs1 & Hok1 & Hs).
    rewrite Hs in Hrun.
    destruct (adopted_fields self opt sh) as (_ & _ & Hhost & _).
    assert (Hsh : exists h, resolveHost self h = Some sh /\
              UrlParts.host (adopted self opt sh) = SanitizedHost.host sh) by eauto.
    destruct (bool_decide _).
    + destruct (openAction _ _ _ _ vs1) as [[e|[parts' o']] vs2] eqn:Hm;
        [discriminate|]. cbn in Hrun. injection Hrun as -> ->.
      apply openAction_inv in Hm as (Hh & Hp).
      apply (validated_resolved self _ sh); [right|exact Hp].
      exists (UrlParts.host (parsed self opt)). split; congruence.
    + destruct (fetchAction self _ _ _ vs1) as [[e|[parts' o']] vs2] eqn:Hm;
        [discriminate|]. cbn in Hrun. injection Hrun as -> ->.
      eapply fetchAction_validated; eauto.
  - destruct (sanitizeParts_unlisted self opt vs Hok Hr) as (vs' & Hs).
    rewrite Hs in Hrun. discriminate.
Qed.
End MoreProperties.

(** ** The response normaliser *)

Section MoreNormalizer.
Variable JSON_parse : string -> option value.
Variable JSON_stringify : value -> string.
Variable reshape : string -> string -> value -> exn + value.
Variable sparql : string -> exn + value.

Lemma parseMWApiResponse_logs data :
  (length (fst (parseMWApiResponse JSON_parse JSON_stringify data)) <= 1)%nat /\
  (forall e, snd (parseMWApiResponse JSON_parse JSON_stringify data) = inl e ->
     fst (parseMWApiResponse JSON_parse JSON_stringify data) = []).
Proof.
  unfold parseMWApiResponse.
  destruct (JSON_parse data) as [d|]; [|cbn; split; [lia|auto]].
  destruct (getField d "error") as [e|err]; [cbn; split; [lia|auto]|].
  destruct (isTruthy err); [cbn; split; [lia|auto]|].
  destruct (getField d "warnings") as [e|w]; [cbn; split; [lia|auto]|].
  destruct (isTruthy w); cbn; split; try lia; discriminate.
Qed.

(** X21. The callback never sees an error together with data: whatever
    the transport delivered and whatever the tag, [dataParser] hands over
    either an error and [undefined], or no error and the data.  An error
    of the transport is passed on as it is, without parsing or logging;
    a payload whose tag is none of the five normalised protocols is
    passed on unchanged, valid JSON or not; and at most one message is
    logged. *)
Theorem dataParser_error_or_data error payload opt :
  let run := dataParser JSON_parse JSON_stringify reshape sparql error payload opt in
  (cb_error (snd run) <> None -> cb_data (snd run) = VUndefined) /\
  (forall e, error = Some e ->
     run = ([], {| cb_error := Some e; cb_data := VUndefined |})) /\
  (error = None ->
   ~ In (Opt.graphProtocol opt)
        [Some "wikiapi:"; Some "wikiraw:"; Some "tabular:"; Some "tabularinfo:";
         Some "wikidatasparql:"] ->
   run = ([], {| cb_error := None; cb_data := VStr payload |})) /\
  (length (fst run) <= 1)%nat.
Proof.
  cbn zeta. unfold dataParser, parseDataOrThrow.
  pose proof (parseMWApiResponse_logs payload) as [Hlen _].
  destruct error as [e|].
  - cbn. repeat split; try discriminate; try lia. intros e' [= ->]. reflexivity.
  - repeat split.
    + repeat match goal with
             | |- context [if ?b then _ else _] => destruct b
             | |- context [parseMWApiResponse ?a ?b ?c] =>
                 destruct (parseMWApiResponse a b c) as [? [?|?]]
             | |- context [match reshape ?a ?b ?c with _ => _ end] =>
                 destruct (reshape a b c)
             | |- context [match sparql ?a with _ => _ end] => destruct (sparql a)
             end; cbn; congruence.
    + discriminate.
    + intros _ Hn. cbn [In] in Hn.
      repeat rewrite bool_decide_eq_false_2 by (intros E; apply Hn; rewrite E; auto 10).
      reflexivity.
    + repeat match goal with
             | |- context [if ?b then _ else _] => destruct b
             | |- context [parseMWApiResponse ?a ?b ?c] =>
                 destruct (parseMWApiResponse a b c) as [? [?|?]]
             | |- context [match reshape ?a ?b ?c with _ => _ end] =>
                 destruct (reshape a b c)
             | |- context [match sparql ?a with _ => _ end] => destruct (sparql a)
             end; cbn in *; lia.
Qed.

(** X22. Page content under [wikiraw:], with the reshaping of that tag
    being [data.query.pages[0].revisions[0].content].  An API error wins
    over any content.  Otherwise, when the first page has a first
    revision, the callback receives that revision's [content] and no
    error, even when the revision has no such field (the data is then
    [undefined]); when [query] is missing or there is no first page, the
    callback receives the content-unavailable error naming the URL.
    Warnings are logged in either case. *)
Theorem wikiraw_content payload opt data :
  Opt.graphProtocol opt = Some "wikiraw:" ->
  JSON_parse payload = Some data ->
  (forall url d, reshape "wikiraw:" url d = wikirawContent url d) ->
  let run := dataParser JSON_parse JSON_stringify reshape sparql None payload opt in
  let unavailable :=
    {| cb_error := Some (Error ("Page content not available " +:+ Opt.url opt));
       cb_data := VUndefined |} in
  (forall err, getField data "error" = inr err -> isTruthy err = true ->
     run = ([], {| cb_error := Some (Error ("API error: " +:+ JSON_stringify err));
                   cb_data := VUndefined |})) /\
  (forall err w, getField data "error" = inr err -> isTruthy err = false ->
     getField data "warnings" = inr w ->
     let messages := if isTruthy w then ["API warnings: " +:+ JSON_stringify w] else [] in
     (forall qp page more rev more',
        getField data "query" = inr (VObj qp) ->
        lookupProp qp "pages" = VArr (VObj page :: more) ->
        lookupProp page "revisions" = VArr (VObj rev :: more') ->
        run = (messages, {| cb_error := None; cb_data := lookupProp rev "content" |})) /\
     (forall qp, getField data "query" = inr (VObj qp) ->
        lookupProp qp "pages" = VArr [] -> run = (messages, unavailable)) /\
     (getField data "query" = inr VUndefined -> run = (messages, unavailable))).
Proof.
  intros Htag Hparse Hre run unavailable. subst run unavailable.
  unfold dataParser, parseDataOrThrow, parseMWApiResponse.
  rewrite Htag, Hparse.
  rewrite (bool_decide_eq_false_2 (Some "wikiraw:" = Some "wikiapi:")) by discriminate.
  rewrite (bool_decide_eq_true_2 (Some "wikiraw:" = Some "wikiraw:")) by reflexivity.
  cbn [orb toStr default]. split.
  - intros err He Ht. rewrite He, Ht. reflexivity.
  - intros err w He Ht Hw. rewrite He, Ht, Hw.
    destruct (isTruthy w); rewrite Hre; unfold wikirawContent; repeat split.
    all: try (intros qp page more rev more' Hq Hp Hrev; rewrite Hq; cbn;
              rewrite Hp; cbn; rewrite Hrev; reflexivity).
    all: try (intros qp Hq Hp; rewrite Hq; cbn; rewrite Hp; reflexivity).
    all: intros Hq; rewrite Hq; reflexivity.
Qed.
End MoreNormalizer.

(** ** The loader *)

Section LoaderProperties.
Context {globals : Globals}.
Variable self : VegaWrapper.
Variable JSON_parse : string -> option value.
Variable JSON_stringify : value -> string.
Variable reshape : string -> string -> value -> exn + value.
Variable sparql : string -> exn + value.
Variable useXhr : bool.
Variable xhr http : string -> Opt.t -> option exn * string.

(** X23. The loader fails closed.  When [sanitizeUrl] throws, no request
    reaches a transport, nothing is logged, and the error goes to the
    callback alone (or, without a callback, is thrown).  Otherwise exactly
    one request is made, for the URL and the options [sanitizeUrl]
    returned; for an untrusted wrapper its URL is formatted from parts
    whose host went through the allowlist for their [https:] or [http:]
    scheme. *)
Theorem loader_fails_closed opt hasCallback vs :
  cacheOk self vs ->
  let run := fst (loader self JSON_parse JSON_stringify reshape sparql useXhr xhr http
                    opt hasCallback vs) in
  (forall e, fst (sanitizeUrl self opt vs) = inl e ->
     run = {| requested := []; logged := [];
              outcome := if hasCallback
                         then Called {| cb_error := Some e; cb_data := VUndefined |}
                         else Thrown e |}) /\
  (forall url o, fst (sanitizeUrl self opt vs) = inr (url, o) ->
     requested run = [(url, o)] /\
     (isTrusted self = false ->
      exists parts, fst (sanitizeParts self opt vs) = inr (parts, o) /\
                    url = formatUrl self parts o /\ validated self parts)) /\
  (length (requested run) <= 1)%nat.
Proof.
  intros Hok run. subst run. unfold loader.
  pose proof (sanitizeUrl_of_parts self opt vs) as Hparts.
  destruct (sanitizeUrl self opt vs) as [[e|[url o]] vs'] eqn:Hs; cbn [fst] in *.
  - split; [|split]; [|discriminate|cbn; lia]. intros e' [= ->]. reflexivity.
  - destruct ((if useXhr then xhr else http) url o) as [error data].
    destruct (dataParser _ _ _ _ error data o) as [messages c].
    split; [discriminate|]. split; [|cbn; lia].
    intros url' o' [= -> ->]. split; [reflexivity|].
    intros Hunt.
    destruct (fst (sanitizeParts self opt vs)) as [e|[parts o'']] eqn:Hp;
      [discriminate|]. cbn in Hparts. injection Hparts as -> ->.
    exists parts. repeat split.
    eapply sanitizeParts_validated; eauto.
Qed.

(** X24. End to end under [wikiapi:], with a callback, for a request on
    an allowlisted host.  When [objExtender] throws on the query of the
    request, as [datalib.extend] does on an undefined one, no transport
    is asked and the callback receives that exception.  When it returns,
    the loader asks the selected transport, and only that one, for the
    [api.php] URL, and the callback receives: an error of the transport
    as it is; [SyntaxError] for a payload that is not JSON; the
    exception of reading [error] from the parsed payload, which is the
    [TypeError] of [getField] for the payload [null]; the API error,
    without data, for a payload with a truthy [error] field; and for
    every other payload the parsed data without error. *)
Theorem loader_wikiapi opt vs sh :
  cacheOk self vs ->
  Opt.type opt <> Some "open" ->
  resolveHost self (UrlParts.host (parsed self opt)) = Some sh ->
  UrlParts.protocol (adopted self opt sh) = Some "wikiapi:" ->
  let run := fst (loader self JSON_parse JSON_stringify reshape sparql useXhr xhr http
                    opt true vs) in
  let failure e := Called {| cb_error := Some e; cb_data := VUndefined |} in
  (forall e,
     objExtender self (UrlParts.query (parsed self opt))
       [("format", "json"); ("formatversion", "2")] = inl e ->
     run = {| requested := []; logged := []; outcome := failure e |}) /\
  (forall extended,
     objExtender self (UrlParts.query (parsed self opt))
       [("format", "json"); ("formatversion", "2")] = inr extended ->
     exists url o,
       fst (sanitizeUrl self opt vs) = inr (url, o) /\
       requested run = [(url, o)] /\
       (forall e payload,
          (if useXhr then xhr url o else http url o) = (Some e, payload) ->
          logged run = [] /\ outcome run = failure e) /\
       (forall payload,
          (if useXhr then xhr url o else http url o) = (None, payload) ->
          (JSON_parse payload = None ->
           logged run = [] /\ outcome run = failure SyntaxError) /\
          (forall data e, JSON_parse payload = Some data ->
             getField data "error" = inl e ->
             logged run = [] /\ outcome run = failure e) /\
          (forall data err, JSON_parse payload = Some data ->
             getField data "error" = inr err ->
             (isTruthy err = true ->
              logged run = [] /\
              outcome run = failure (Error ("API error: " +:+ JSON_stringify err))) /\
             (isTruthy err = false ->
              outcome run = Called {| cb_error := None; cb_data := data |})))).
Proof.
  intros Hok Hty Hr Hp run failure. subst run failure.
  pose proof (sanitizeUrl_of_parts self opt vs) as Hparts.
  destruct (fetch_run self opt vs sh Hok Hty Hr) as (vs1 & _ & Hs).
  destruct (adopted_fields self opt sh) as (_ & Hquery & _).
  rewrite Hs in Hparts. unfold fetchAction in Hparts. rewrite Hp, Hquery in Hparts.
  cbn -[bind lift] in Hparts. unfold bind, lift in Hparts.
  unfold loader. split.
  - intros e He. rewrite He in Hparts. cbn in Hparts.
    destruct (sanitizeUrl self opt vs) as [[e'|[url o]] vs'] eqn:Hrun;
      cbn [fst] in Hparts; [|discriminate]. injection Hparts as ->. reflexivity.
  - intros extended He. rewrite He in Hparts. cbn in Hparts.
    match type of Hparts with _ = inr (?u, ?o) => exists u, o end.
    split; [exact Hparts|].
    destruct (sanitizeUrl self opt vs) as [[e|[url o]] vs'] eqn:Hrun;
      cbn [fst] in Hparts; [discriminate|]. injection Hparts as -> ->.
    match goal with |- context [(if useXhr then xhr else http) ?U ?O] =>
      set (url := U); set (o := O);
      assert (Hxfer : (if useXhr then xhr url o else http url o)
                      = (if useXhr then xhr else http) url o)
        by (destruct useXhr; reflexivity);
      rewrite Hxfer; clear Hxfer;
      assert (Htag : Opt.graphProtocol o = Some "wikiapi:")
        by (subst o; unfold tagged; cbn; exact Hp);
      clearbody url o
    end.
    destruct ((if useXhr then xhr else http) url o) as [error data].
    unfold dataParser, parseDataOrThrow, parseMWApiResponse. rewrite Htag.
    rewrite bool_decide_eq_true_2 by reflexivity.
    destruct error as [e|].
    + cbn. repeat split; try discriminate; intros; simplify_eq; reflexivity.
    + split; [|split].
      * destruct (JSON_parse data) as [d|]; [|reflexivity].
        destruct (getField d "error") as [|err]; [reflexivity|].
        destruct (isTruthy err); [reflexivity|].
        destruct (getField d "warnings") as [|w]; [reflexivity|].
        destruct (isTruthy w); reflexivity.
      * discriminate.
      * intros payload [= ->]. split; [|split].
        -- intros ->. split; reflexivity.
        -- intros d e Hd He'. rewrite Hd, He'. split; reflexivity.
        -- intros d err Hd He'. rewrite Hd, He'. split; intros ->.
           ++ split; reflexivity.
           ++ assert (Hw : exists w, getField d "warnings" = inr w)
                by (destruct d; try discriminate He'; cbn; eauto).
              destruct Hw as [w ->]. destruct (isTruthy w); reflexivity.
Qed.
End LoaderProperties.

(** * The further properties on the sample site *)

Ltac given :=
  first
    [ apply cacheOk_empty
    | discriminate
    | vm_compute; reflexivity
    | left; vm_compute; reflexivity
    | right; vm_compute; reflexivity
    | match goal with
      | |- ~ In _ _ =>
          let H := fresh in
          intros H; vm_compute in H;
          repeat (destruct H as [H|H]; [discriminate H|]); contradiction
      end ].

Lemma getProtocolDomains_colon_witness :
  _getProtocolDomains Site.wrapper "geoshape:" = Some ["maps.wikimedia.org"] /\
  _getProtocolDomains Site.wrapper "tabular:" = Some ["commons.wikimedia.org"] /\
  _getProtocolDomains Site.wrapper "tabular" = None.
Proof.
  split; [|split].
  - etransitivity; [apply (proj1 (getProtocolDomains_colon Site.wrapper "geoshape"))|].
    vm_compute. reflexivity.
  - etransitivity; [apply (proj1 (getProtocolDomains_colon Site.wrapper "tabular"))|].
    vm_compute. reflexivity.
  - etransitivity;
      [apply (proj1 (proj2 (getProtocolDomains_colon Site.wrapper EmptyString))
                "tabula" "r"%char); discriminate|].
    vm_compute. reflexivity.
Defined.

Lemma testHost_caches_once_witness :
  let vs1 := snd (testHost Site.wrapper "https:" (Some "en.wikipedia.org") ∅) in
  snd (testHost Site.wrapper "https:" (Some "example.com") vs1) = vs1 /\
  vs1 !! "geoshape:" = None /\
  testHost Site.wrapper "gopher:" (Some "en.wikipedia.org") ∅ = (inr false, ∅).
Proof.
  cbn zeta. split; [|split].
  - apply (proj1 (testHost_caches_once Site.wrapper "https:" (Some "en.wikipedia.org") ∅)).
  - etransitivity;
      [apply (proj1 (proj2 (proj2 (testHost_caches_once Site.wrapper "https:"
                (Some "en.wikipedia.org") ∅))) "geoshape:"); discriminate|].
    apply lookup_empty.
  - apply (proj2 (proj2 (proj2 (testHost_caches_once Site.wrapper "gopher:"
              (Some "en.wikipedia.org") ∅)))); [apply lookup_empty|given].
Defined.

Lemma sanitizeUrl_cache_independent_witness :
  let vs := snd (sanitizeUrl Site.wrapper (Site.fetch "geoshape:///?ids=Q16&extra=1") ∅) in
  vs !! "geoshape:" <> None /\
  fst (sanitizeUrl Site.wrapper (Site.fetch "tabular:///Data.tab") vs)
    = fst (sanitizeUrl Site.wrapper (Site.fetch "tabular:///Data.tab") ∅).
Proof.
  cbn zeta. split; [vm_compute; discriminate|].
  apply (sanitizeUrl_cache_independent Site.wrapper (Site.fetch "tabular:///Data.tab")).
  apply (sanitizeUrl_cache_independent Site.wrapper
           (Site.fetch "geoshape:///?ids=Q16&extra=1") ∅).
  apply cacheOk_empty.
Defined.

Lemma repairUrl_compound_idempotent_witness :
  repairUrl "wikiraw:https://en.wikipedia.org/Foo" = "wikiraw://en.wikipedia.org/Foo" /\
  repairUrl "tabular:http://commons.wikimedia.org/D.tab"
    = "tabular://commons.wikimedia.org/D.tab".
Proof.
  split.
  - apply (proj2 (proj1 repairUrl_compound_idempotent "wikiraw" "en.wikipedia.org/Foo"
             ltac:(discriminate) eq_refl)).
  - apply (proj1 (proj1 repairUrl_compound_idempotent "tabular" "commons.wikimedia.org/D.tab"
             ltac:(discriminate) eq_refl)).
Defined.

Lemma fetch_unknown_protocol_witness :
  fst (sanitizeUrl Site.wrapper (Site.fetch "wikititle:///My_page") ∅)
    = inl (unknownProtocolError "wikititle:///My_page") /\
  fst (sanitizeUrl Site.wrapper (Site.fetch "gopher://en.wikipedia.org/") ∅)
    = inl (unknownProtocolError "gopher://en.wikipedia.org/").
Proof.
  split.
  - apply (fetch_unknown_protocol Site.wrapper (Site.fetch "wikititle:///My_page") ∅
             Site.enwiki); given.
  - apply (fetch_unknown_protocol Site.wrapper (Site.fetch "gopher://en.wikipedia.org/") ∅
             Site.enwiki); given.
Defined.

Lemma open_links_to_wiki_page_witness :
  (exists title,
     "/wiki/Main_Page" = "/wiki/" +:+ encodeURIComponent title) /\
  fst (sanitizeUrl Site.wrapper (Site.open "wikiapi:///?action=query") ∅)
    = inl openProtocolError.
Proof.
  split.
  - refine (proj1 (proj2 (proj1 (open_links_to_wiki_page Site.wrapper
              (Site.open "https://en.m.wikipedia.org/wiki/Main_Page") ∅ Site.enwiki
              _ _ _)
              (UrlParts.mk (Some "en.wikipedia.org") (Some "https:") "/wiki/Main_Page"
                 (Some []) false)
              (Opt.mk "https://en.m.wikipedia.org/wiki/Main_Page" (Some "open")
                 (Some "wikititle") false None) _))); given.
  - refine (proj2 (open_links_to_wiki_page Site.wrapper
              (Site.open "wikiapi:///?action=query") ∅ Site.enwiki _ _ _) _ _); given.
Defined.

Lemma wikiapi_translation_witness :
  (exists parts o,
     fst (sanitizeParts Site.wrapper (Site.fetch "wikiapi:///?action=query") ∅)
       = inr (parts, o) /\
     UrlParts.pathname parts = "/w/api.php" /\
     UrlParts.query parts
       = Some [("action", "query"); ("format", "json"); ("formatversion", "2")]) /\
  fst (sanitizeUrl Site.wrapper (Site.fetch "wikiapi:///") ∅) = inl TypeError.
Proof.
  split.
  - destruct (proj2 (wikiapi_translation Site.wrapper
                (Site.fetch "wikiapi:///?action=query") ∅ Site.enwiki
                ltac:(given) ltac:(given) ltac:(given) ltac:(given))
                (Some [("action", "query"); ("format", "json"); ("formatversion", "2")])
                ltac:(given))
      as (parts & o & H & _ & Hpath & Hquery & _).
    exists parts, o. repeat split; assumption.
  - refine (proj2 (proj1 (wikiapi_translation Site.wrapper (Site.fetch "wikiapi:///") ∅
              Site.enwiki _ _ _ _) TypeError _)); given.
Defined.

Lemma wikiraw_translation_witness :
  (exists parts o,
     fst (sanitizeParts Site.wrapper (Site.fetch "wikiraw:///My_Page") ∅)
       = inr (parts, o) /\
     UrlParts.query parts
       = Some [("format", "json"); ("formatversion", "2"); ("action", "query");
               ("prop", "revisions"); ("rvprop", "content"); ("titles", "My_Page")]) /\
  fst (sanitizeUrl Site.wrapper (Site.fetch "wikiraw:///My%7CPage") ∅)
    = inl (Error "wikiraw: invalid title") /\
  fst (sanitizeUrl Site.wrapper (Site.fetch "wikiraw:///%") ∅) = inl URIError.
Proof.
  split; [|split].
  - destruct (proj1 (wikiraw_translation Site.wrapper (Site.fetch "wikiraw:///My_Page") ∅
                Site.enwiki ltac:(given) ltac:(given) ltac:(given) ltac:(given))
                "M"%char "y_Page" ltac:(given) ltac:(given))
      as (parts & o & H & _ & Hquery & _).
    exists parts, o. split; [exact H|exact Hquery].
  - refine (proj1 (proj2 (wikiraw_translation Site.wrapper
              (Site.fetch "wikiraw:///My%7CPage") ∅ Site.enwiki _ _ _ _))
              "/My|Page" _ _); given.
  - refine (proj2 (proj2 (wikiraw_translation Site.wrapper
              (Site.fetch "wikiraw:///%") ∅ Site.enwiki _ _ _ _)) _); given.
Defined.

Lemma wikirest_translation_witness :
  (exists parts o,
     fst (sanitizeParts Site.wrapper
            (Site.fetch "wikirest:///api/rest_v1/page/html/Foo") ∅) = inr (parts, o) /\
     UrlParts.pathname parts = "/api/rest_v1/page/html/Foo") /\
  fst (sanitizeUrl Site.wrapper (Site.fetch "wikirest:///w/index.php") ∅)
    = inl (Error "wikirest: protocol must begin with the /api/ prefix").
Proof.
  split.
  - destruct (proj1 (wikirest_translation Site.wrapper
                (Site.fetch "wikirest:///api/rest_v1/page/html/Foo") ∅ Site.enwiki
                ltac:(given) ltac:(given) ltac:(given) ltac:(given))
                "rest_v1/page/html/Foo" ltac:(given))
      as (parts & o & H & Hpath & _).
    exists parts, o. split; [exact H|]. rewrite Hpath. vm_compute. reflexivity.
  - refine (proj2 (wikirest_translation Site.wrapper
              (Site.fetch "wikirest:///w/index.php") ∅ Site.enwiki _ _ _ _) _); given.
Defined.

Lemma wikifile_translation_witness :
  exists parts o,
    fst (sanitizeParts Site.wrapper (Site.fetch "wikifile:///Einstein_1921.jpg") ∅)
      = inr (parts, o) /\
    UrlParts.pathname parts = "/wiki/Special:Redirect/file/Einstein_1921.jpg".
Proof.
  destruct (wikifile_translation Site.wrapper (Site.fetch "wikifile:///Einstein_1921.jpg")
              ∅ Site.enwiki ltac:(given) ltac:(given) ltac:(given) ltac:(given))
    as (parts & o & H & Hpath & _).
  exists parts, o. split; [exact H|]. rewrite Hpath. vm_compute. reflexivity.
Defined.


Lemma validateExternalService_outcome_witness :
  fst (_validateExternalService Site.wrapper
         (Site.own "tabular:" "/w/api.php" []) Site.enwiki "tabular:///Data.tab"
         (Some "geoshape:") ∅)
    = inr (UrlParts.mk (Some "maps.wikimedia.org") (Some "https:") "/w/api.php"
             (Some []) true) /\
  allowed Site.wrapper "geoshape:" (Some "maps.wikimedia.org") = true /\
  fst (_validateExternalService Site.bare
         (Site.own "geoline:" "/" []) Site.enwiki "geoline:///" (Some "geoshape:") ∅)
    = inl (disabledError "geoshape:" "geoline:///") /\
  fst (_validateExternalService Site.wrapper
         (UrlParts.mk (Some "en.wikipedia.org") (Some "wikirawupload:") "/logo.png"
            (Some []) false)
         Site.enwiki "wikirawupload://en.wikipedia.org/logo.png" None ∅)
    = inl (hostNotAllowedError "wikirawupload:"
             "wikirawupload://en.wikipedia.org/logo.png").
Proof.
  split; [vm_compute; reflexivity|]. split; [|split].
  - refine (proj1 (proj1 (proj2 (validateExternalService_outcome Site.wrapper
              (Site.own "tabular:" "/w/api.php" []) Site.enwiki "tabular:///Data.tab"
              (Some "geoshape:") ∅ _) ["maps.wikimedia.org"] _)
              (UrlParts.mk (Some "maps.wikimedia.org") (Some "https:") "/w/api.php"
                 (Some []) true) _)); given.
  - refine (proj1 (validateExternalService_outcome Site.bare
              (Site.own "geoline:" "/" []) Site.enwiki "geoline:///" (Some "geoshape:")
              ∅ _) _); given.
  - refine (proj2 (proj2 (proj2 (validateExternalService_outcome Site.wrapper
              (UrlParts.mk (Some "en.wikipedia.org") (Some "wikirawupload:") "/logo.png"
                 (Some []) false)
              Site.enwiki "wikirawupload://en.wikipedia.org/logo.png" None ∅ _)
              ["upload.wikimedia.org"] _)) _ _); given.
Defined.

Lemma geoshape_family_disabled_witness :
  fst (sanitizeUrl Site.bare (Site.fetch "geoline:///") ∅)
    = inl (disabledError "geoshape:" "geoline:///").
Proof.
  apply (geoshape_family_disabled Site.bare (Site.fetch "geoline:///") ∅ Site.enwiki);
    try given.
  right. left. reflexivity.
Defined.

Lemma geoshape_translation_witness :
  (exists parts o,
     fst (sanitizeParts Site.wrapper (Site.fetch "geoshape:///?ids=Q16&extra=1") ∅)
       = inr (parts, o) /\
     UrlParts.pathname parts = "/geoshape" /\
     UrlParts.query parts = Some [("ids", "Q16"); ("extra", "1")]) /\
  fst (sanitizeUrl Site.wrapper (Site.fetch "geoline:///") ∅)
    = inl (Error ("geoline: missing ids or query parameter in: geoline:///")).
Proof.
  split.
  - destruct (proj1 (geoshape_translation Site.wrapper
                (Site.fetch "geoshape:///?ids=Q16&extra=1") ∅ Site.enwiki
                (UrlParts.mk (Some "maps.wikimedia.org") (Some "https:") "/"
                   (Some [("ids", "Q16"); ("extra", "1")]) true)
                ltac:(given) ltac:(given) ltac:(given) ltac:(given)
                "geoshape" (or_introl eq_refl) ltac:(given))
                [("ids", "Q16"); ("extra", "1")] ltac:(given) (or_introl eq_refl))
      as (parts & o & H & Hpath & Hquery & _).
    exists parts, o. repeat split; assumption.
  - refine (proj2 (geoshape_translation Site.wrapper (Site.fetch "geoline:///") ∅
              Site.enwiki
              (UrlParts.mk (Some "maps.wikimedia.org") (Some "https:") "/" (Some []) true)
              _ _ _ _ "geoline" (or_intror eq_refl) _) _); try given.
    intros q [= <-]. split; reflexivity.
Defined.

Lemma wikidatasparql_translation_witness :
  (exists parts o,
     fst (sanitizeParts Site.wrapper
            (Site.fetch "wikidatasparql:///?query=SELECT&format=xml") ∅)
       = inr (parts, o) /\
     UrlParts.query parts = Some [("query", "SELECT")] /\
     UrlParts.host parts = Some "query.wikidata.org" /\
     Opt.headers o = Some [("Accept", "application/sparql-results+json")]) /\
  fst (sanitizeUrl Site.wrapper (Site.fetch "wikidatasparql:///") ∅)
    = inl (Error "wikidatasparql: missing query parameter in: wikidatasparql:///").
Proof.
  split.
  - pose proof (proj1 (wikidatasparql_translation Site.wrapper
                (Site.fetch "wikidatasparql:///?query=SELECT&format=xml") ∅ Site.enwiki
                (UrlParts.mk (Some "query.wikidata.org") (Some "https:") "/"
                   (Some [("query", "SELECT"); ("format", "xml")]) true)
                ltac:(given) ltac:(given) ltac:(given) ltac:(given) ltac:(given))
                [("query", "SELECT"); ("format", "xml")] "SELECT"
                ltac:(given) ltac:(given) ltac:(given)) as Hrun.
    change (objExtender Site.wrapper _ _)
      with (@inr exn _ (Some [("Accept", "application/sparql-results+json")])) in Hrun.
    cbv beta iota in Hrun.
    destruct Hrun as (parts & o & H & _ & Hquery & Hhost & _ & Hheaders).
    exists parts, o. repeat split; assumption.
  - refine (proj2 (wikidatasparql_translation Site.wrapper
              (Site.fetch "wikidatasparql:///") ∅ Site.enwiki
              (UrlParts.mk (Some "query.wikidata.org") (Some "https:") "/" (Some []) true)
              _ _ _ _ _) _); try given.
    intros q [= <-]. reflexivity.
Defined.

Lemma wikirawupload_translation_witness :
  exists parts o,
    fst (sanitizeParts Site.wrapper
           (Site.fetch
              "wikirawupload://upload.wikimedia.org/wikipedia/commons/3/3e/Einstein_1921.jpg?x=1")
           ∅) = inr (parts, o) /\
    UrlParts.pathname parts = "/wikipedia/commons/3/3e/Einstein_1921.jpg" /\
    UrlParts.query parts = Some [].
Proof.
  destruct (proj1 (wikirawupload_translation Site.wrapper
              (Site.fetch
                 "wikirawupload://upload.wikimedia.org/wikipedia/commons/3/3e/Einstein_1921.jpg?x=1")
              ∅ (SanitizedHost.mk (Some "upload.wikimedia.org") "https:")
              ltac:(given) ltac:(given) ltac:(given) ltac:(given))
              (UrlParts.mk (Some "upload.wikimedia.org") (Some "https:")
                 "/wikipedia/commons/3/3e/Einstein_1921.jpg" (Some [("x", "1")]) false)
              ltac:(given))
    as (_ & parts & o & H & Hpath & Hquery & _).
  exists parts, o. repeat split; [exact H| |exact Hquery].
  rewrite Hpath. vm_compute. reflexivity.
Defined.

Lemma tabular_translation_witness :
  exists parts o,
    fst (sanitizeParts Site.wrapper (Site.fetch "tabular:///Data.tab") ∅)
      = inr (parts, o) /\
    UrlParts.query parts
      = Some [("format", "json"); ("formatversion", "2"); ("action", "jsondata");
              ("title", "Data.tab")] /\
    UrlParts.host parts = Some "commons.wikimedia.org".
Proof.
  destruct (tabular_translation Site.wrapper (Site.fetch "tabular:///Data.tab") ∅
              Site.enwiki
              (UrlParts.mk (Some "commons.wikimedia.org") (Some "https:") "/Data.tab"
                 (Some []) true)
              ltac:(given) ltac:(given) ltac:(given) ltac:(given) ltac:(given)
              "D"%char "ata.tab" ltac:(given) ltac:(given))
    as (parts & o & H & _ & Hquery & Hhost & _).
  exists parts, o. repeat split; assumption.
Defined.

Lemma fetch_leaves_on_opt_witness :
  let o := Opt.mk "wikiraw:///My_Page" None (Some "wikiraw:") true None in
  Opt.graphProtocol o = Some "wikiraw:" /\
  Opt.addCorsOrigin o = false || existsb (String.eqb "wikiraw:") corsProtocols.
Proof.
  cbn zeta.
  refine (let H := fetch_leaves_on_opt Site.wrapper (Site.fetch "wikiraw:///My_Page") ∅
              Site.enwiki
              (UrlParts.mk (Some "en.wikipedia.org") (Some "https:") "/w/api.php"
                 (Some [("format", "json"); ("formatversion", "2"); ("action", "query");
                        ("prop", "revisions"); ("rvprop", "content");
                        ("titles", "My_Page")]) true)
              (Opt.mk "wikiraw:///My_Page" None (Some "wikiraw:") true None) _ _ _ _ in
          conj (proj1 (proj2 (proj2 (proj2 H)))) (proj1 (proj2 (proj2 (proj2 (proj2 H))))));
    given.
Defined.



Lemma dataParser_error_or_data_witness :
  dataParser Site.parseJson Sample.stringify Site.reshape Sample.noSparql
    (Some (Error "404")) "failed" (Sample.tag "wikiapi:")
  = ([], {| cb_error := Some (Error "404"); cb_data := VUndefined |}) /\
  dataParser Site.parseJson Sample.stringify Site.reshape Sample.noSparql
    None "not json" (Sample.tag "https:")
  = ([], {| cb_error := None; cb_data := VStr "not json" |}).
Proof.
  split.
  - apply (proj1 (proj2 (dataParser_error_or_data Site.parseJson Sample.stringify
             Site.reshape Sample.noSparql (Some (Error "404")) "failed"
             (Sample.tag "wikiapi:")))). reflexivity.
  - apply (proj1 (proj2 (proj2 (dataParser_error_or_data Site.parseJson Sample.stringify
             Site.reshape Sample.noSparql None "not json" (Sample.tag "https:")))));
      given.
Defined.

Lemma wikiraw_content_witness :
  let run payload :=
    dataParser Site.parseJson Sample.stringify Site.reshape Sample.noSparql None payload
      (Opt.mk "wikiraw:///My_Page" None (Some "wikiraw:") true None) in
  run "content" = ([], {| cb_error := None; cb_data := VStr "a,b" |}) /\
  run "nocontent" = ([], {| cb_error := None; cb_data := VUndefined |}) /\
  run "nopages"
    = ([], {| cb_error := Some (Error "Page content not available wikiraw:///My_Page");
              cb_data := VUndefined |}) /\
  run "failed"
    = ([], {| cb_error := Some (Error ("API error: " +:+ Sample.stringify
                                         (VObj [("code", VStr "badtitle")])));
              cb_data := VUndefined |}).
Proof.
  cbn zeta.
  assert (Hre : forall url d, Site.reshape "wikiraw:" url d = wikirawContent url d)
    by reflexivity.
  split; [|split; [|split]].
  - refine (proj1 (proj2 (wikiraw_content Site.parseJson Sample.stringify Site.reshape
              Sample.noSparql "content"
              (Opt.mk "wikiraw:///My_Page" None (Some "wikiraw:") true None)
              Site.withContent eq_refl eq_refl Hre)
              VUndefined VUndefined eq_refl eq_refl eq_refl) _ _ _ _ _ eq_refl eq_refl
              eq_refl).
  - refine (proj1 (proj2 (wikiraw_content Site.parseJson Sample.stringify Site.reshape
              Sample.noSparql "nocontent"
              (Opt.mk "wikiraw:///My_Page" None (Some "wikiraw:") true None)
              Site.withoutContent eq_refl eq_refl Hre)
              VUndefined VUndefined eq_refl eq_refl eq_refl) _ _ _ _ _ eq_refl eq_refl
              eq_refl).
  - refine (proj1 (proj2 (proj2 (wikiraw_content Site.parseJson Sample.stringify
              Site.reshape Sample.noSparql "nopages"
              (Opt.mk "wikiraw:///My_Page" None (Some "wikiraw:") true None)
              Site.noPages eq_refl eq_refl Hre)
              VUndefined VUndefined eq_refl eq_refl eq_refl)) _ eq_refl eq_refl).
  - refine (proj1 (wikiraw_content Site.parseJson Sample.stringify Site.reshape
              Sample.noSparql "failed"
              (Opt.mk "wikiraw:///My_Page" None (Some "wikiraw:") true None)
              Sample.failed eq_refl eq_refl Hre)
              (VObj [("code", VStr "badtitle")]) eq_refl eq_refl).
Defined.

Lemma loader_fails_closed_witness :
  Site.load "warned" (Site.fetch "gopher://en.wikipedia.org/") true
    = {| requested := []; logged := [];
         outcome := Called {| cb_error := Some (unknownProtocolError
                                                   "gopher://en.wikipedia.org/");
                              cb_data := VUndefined |} |} /\
  requested (Site.load "warned" (Site.fetch "wikiapi:///?action=query") true)
    = [("https://en.wikipedia.org/w/api.php?action=query&format=json&formatversion=2",
        Opt.mk "wikiapi:///?action=query" None (Some "wikiapi:") true None)].
Proof.
  split.
  - refine (proj1 (loader_fails_closed Site.wrapper Site.parseJson Sample.stringify
              Site.reshape Sample.noSparql true (Site.transport "warned") Site.unused
              (Site.fetch "gopher://en.wikipedia.org/") true ∅ _) _ _); given.
  - refine (proj1 (proj1 (proj2 (loader_fails_closed Site.wrapper Site.parseJson
              Sample.stringify Site.reshape Sample.noSparql true (Site.transport "warned")
              Site.unused (Site.fetch "wikiapi:///?action=query") true ∅ _)) _ _ _));
      given.
Defined.

Lemma loader_wikiapi_witness :
  Site.load "null" (Site.fetch "wikiapi:///") true
    = {| requested := []; logged := [];
         outcome := Called {| cb_error := Some TypeError; cb_data := VUndefined |} |} /\
  (exists url o,
     fst (sanitizeUrl Site.wrapper (Site.fetch "wikiapi:///?action=query") ∅)
       = inr (url, o) /\
     requested (Site.load "null" (Site.fetch "wikiapi:///?action=query") true)
       = [(url, o)] /\
     outcome (Site.load "null" (Site.fetch "wikiapi:///?action=query") true)
       = Called {| cb_error := Some TypeError; cb_data := VUndefined |}) /\
  outcome (Site.load "warned" (Site.fetch "wikiapi:///?action=query") true)
    = Called {| cb_error := None; cb_data := Sample.warned |}.
Proof.
  split; [|split].
  - refine (proj1 (loader_wikiapi Site.wrapper Site.parseJson Sample.stringify
              Site.reshape Sample.noSparql true (Site.transport "null") Site.unused
              (Site.fetch "wikiapi:///") ∅ Site.enwiki _ _ _ _) TypeError _); given.
  - destruct (proj2 (loader_wikiapi Site.wrapper Site.parseJson Sample.stringify
                Site.reshape Sample.noSparql true (Site.transport "null") Site.unused
                (Site.fetch "wikiapi:///?action=query") ∅ Site.enwiki
                ltac:(given) ltac:(given) ltac:(given) ltac:(given))
                (Some [("action", "query"); ("format", "json"); ("formatversion", "2")])
                ltac:(given))
      as (url & o & Hs & Hreq & _ & Hpayload).
    exists url, o. split; [exact Hs|]. split; [exact Hreq|].
    assert (Hurl : url = formatUrl Site.wrapper
              (UrlParts.mk (Some "en.wikipedia.org") (Some "https:") "/w/api.php"
                 (Some [("action", "query"); ("format", "json"); ("formatversion", "2")])
                 true) o)
      by (vm_compute in Hs; vm_compute; congruence).
    refine (proj2 (proj1 (proj2 (Hpayload "null" _)) VNull TypeError _ _)).
    + rewrite Hurl. reflexivity.
    + reflexivity.
    + reflexivity.
  - destruct (proj2 (loader_wikiapi Site.wrapper Site.parseJson Sample.stringify
                Site.reshape Sample.noSparql true (Site.transport "warned") Site.unused
                (Site.fetch "wikiapi:///?action=query") ∅ Site.enwiki
                ltac:(given) ltac:(given) ltac:(given) ltac:(given))
                (Some [("action", "query"); ("format", "json"); ("formatversion", "2")])
                ltac:(given))
      as (url & o & Hs & _ & _ & Hpayload).
    assert (Hurl : url = formatUrl Site.wrapper
              (UrlParts.mk (Some "en.wikipedia.org") (Some "https:") "/w/api.php"
                 (Some [("action", "query"); ("format", "json"); ("formatversion", "2")])
                 true) o)
      by (vm_compute in Hs; vm_compute; congruence).
    refine (proj2 (proj2 (proj2 (Hpayload "warned" _)) Sample.warned VUndefined _ _) _).
    + rewrite Hurl. reflexivity.
    + reflexivity.
    + reflexivity.
    + reflexivity.
Defined.
